(** * logic-directional-movement: the component and its tick handler

    A shallow embedding of
    [src/js/standard-components/logic-directional-movement.js].

    - JavaScript numbers are IEEE 754 binary64 values: the kernel's
      primitive [float], with the operators' specifications of
      [FloatAxioms] for the facts that hold at every number.
    - JavaScript values that reach the component from outside (message
      payloads, the [definition] object) are terms of [JS.value].
    - The component instance ([this]) and its owning entity are records;
      each handler is a function from the payload and the instance to the
      mutated instance and a completion (normal, or a thrown TypeError). *)

From Stdlib Require Import Bool List String ZArith Floats Permutation.
Import ListNotations.

Set Warnings "-inexact-float,-register-all".

Local Open Scope string_scope.

(** ** JavaScript values and the operators the component uses *)

Module JS.

Inductive value : Type :=
| VUndefined
| VNull
| VBool (b : bool)
| VNum (n : float)
| VStr (s : string)
| VObj (props : list (string * value)).

Definition object := list (string * value).

(** [ToBoolean]: what [if (v)], [!v] and [v || w] test. *)
Definition ToBoolean (v : value) : bool :=
  match v with
  | VUndefined | VNull => false
  | VBool b => b
  | VNum n => negb (is_zero n || is_nan n)
  | VStr s => negb (s =? "")
  | VObj _ => true
  end.

(** [a || b]: the left operand when it is truthy, else the right one. *)
Definition or (a b : value) : value := if ToBoolean a then a else b.

(** Own property lookup in an object literal; the first binding wins. *)
Fixpoint lookup (P : string) (props : object) : option value :=
  match props with
  | [] => None
  | (k, v) :: rest => if k =? P then Some v else lookup P rest
  end.

Definition HasProperty (P : string) (props : object) : bool :=
  match lookup P props with Some _ => true | None => false end.

(** A completion: the value of an expression, or a thrown TypeError. *)
Inductive completion (A : Type) : Type :=
| Normal (a : A)
| TypeError.
Arguments Normal {A} a.
Arguments TypeError {A}.

(** [v.P] for the property names the component reads ([pressed],
    [deltaT], [speed]): a missing property is [undefined], reading a
    property of [undefined] or [null] throws, and a boolean, number or
    string has no such property (built-in prototypes are not extended). *)
Definition Get (v : value) (P : string) : completion value :=
  match v with
  | VUndefined | VNull => TypeError
  | VObj props =>
      Normal (match lookup P props with Some w => w | None => VUndefined end)
  | VBool _ | VNum _ | VStr _ => Normal VUndefined
  end.

(** Equality of numbers as [SameValueZero]: [NaN] is the same as [NaN],
    and [+0] the same as [-0]. *)
Definition SameValueZero (a b : float) : bool :=
  (a =? b)%float || (is_nan a && is_nan b).

(** The two numeric coercions of the host that are not modelled: the
    number a string denotes, and the number an object converts to
    (through its [valueOf] and [toString]). *)
Class Host : Type :=
  { StringToNumber : string -> float;
    ObjectToNumber : object -> float }.

Definition ToNumber {host : Host} (v : value) : float :=
  match v with
  | VUndefined => nan
  | VNull => 0%float
  | VBool b => if b then 1%float else 0%float
  | VNum n => n
  | VStr s => StringToNumber s
  | VObj props => ObjectToNumber props
  end.

End JS.

(** ** The entity, the component instance and its handlers *)

(** [this.state]: the snapshot that [logical-state] carries. *)
Module State.

Record t : Type := Build
  { moving : bool; left : bool; right : bool; up : bool; down : bool }.

Definition set_moving (b : bool) (s : t) : t :=
  Build b (left s) (right s) (up s) (down s).
Definition set_up (b : bool) (s : t) : t :=
  Build (moving s) (left s) (right s) b (down s).
Definition set_right (b : bool) (s : t) : t :=
  Build (moving s) (left s) b (up s) (down s).
Definition set_down (b : bool) (s : t) : t :=
  Build (moving s) (left s) (right s) (up s) b.
Definition set_left (b : bool) (s : t) : t :=
  Build (moving s) b (right s) (up s) (down s).

(** Two snapshots agree on all five fields. *)
Definition eqb (s1 s2 : t) : bool :=
  Bool.eqb (moving s1) (moving s2) && Bool.eqb (up s1) (up s2)
  && Bool.eqb (right s1) (right s2) && Bool.eqb (down s1) (down s2)
  && Bool.eqb (left s1) (left s2).

End State.

(** [this.owner]: the entity. Its position, and the notifications
    triggered on it so far, oldest first. [trigger] is handed [this.state]
    itself; the log records the fields a listener reads when it is
    called. *)
Module Entity.

Record t : Type := Build
  { x : float; y : float; triggered : list (string * State.t) }.

Definition set_x (n : float) (o : t) : t := Build n (y o) (triggered o).
Definition set_y (n : float) (o : t) : t := Build (x o) n (triggered o).

Definition trigger (messageId : string) (value : State.t) (o : t) : t :=
  Build (x o) (y o) (triggered o ++ [(messageId, value)]).

End Entity.

(** The component instance: the object the constructor fills in. *)
Record instance : Type := Instance
  { owner : Entity.t;
    speed : JS.value;
    state : State.t;
    moving : bool;
    left : bool;
    right : bool;
    up : bool;
    down : bool;
    upLeft : bool;
    upRight : bool;
    downLeft : bool;
    downRight : bool }.

Definition set_owner (o : Entity.t) (this : instance) : instance :=
  Instance o (speed this) (state this) (moving this)
    (left this) (right this) (up this) (down this)
    (upLeft this) (upRight this) (downLeft this) (downRight this).

Definition set_state (s : State.t) (this : instance) : instance :=
  Instance (owner this) (speed this) s (moving this)
    (left this) (right this) (up this) (down this)
    (upLeft this) (upRight this) (downLeft this) (downRight this).

Definition set_moving (b : bool) (this : instance) : instance :=
  Instance (owner this) (speed this) (state this) b
    (left this) (right this) (up this) (down this)
    (upLeft this) (upRight this) (downLeft this) (downRight this).

(** The eight intent flags, in the order of the constructor. *)
Definition flags (this : instance) : list bool :=
  [left this; right this; up this; down this;
   upLeft this; upRight this; downLeft this; downRight this].

(** [this[direction]] for the eight property names [processDirection] is
    applied to. *)
Definition get (this : instance) (direction : string) : bool :=
  if direction =? "left" then left this
  else if direction =? "right" then right this
  else if direction =? "up" then up this
  else if direction =? "down" then down this
  else if direction =? "upLeft" then upLeft this
  else if direction =? "upRight" then upRight this
  else if direction =? "downLeft" then downLeft this
  else if direction =? "downRight" then downRight this
  else false.

(** [this[direction] = b]. *)
Definition put (direction : string) (b : bool) (this : instance) : instance :=
  let f (name : string) (old : bool) := if direction =? name then b else old in
  Instance (owner this) (speed this) (state this) (moving this)
    (f "left" (left this)) (f "right" (right this))
    (f "up" (up this)) (f "down" (down this))
    (f "upLeft" (upLeft this)) (f "upRight" (upRight this))
    (f "downLeft" (downLeft this)) (f "downRight" (downRight this)).

(** The message ids the constructor hands to [addListeners]; each is
    bound on the owner to a function that calls [self[messageId]]. *)
Definition listeners : list string :=
  ["handle-logic";
   "go-down"; "go-south";
   "go-down-left"; "go-southwest";
   "go-left"; "go-west";
   "go-up-left"; "go-northwest";
   "go-up"; "go-north";
   "go-up-right"; "go-northeast";
   "go-right"; "go-east";
   "go-down-right"; "go-southeast";
   "stop"].

(** [component = function(owner, definition)]: the constructor. Reading
    [definition.speed] throws when [definition] is [undefined] or [null]. *)
Definition component (owner : Entity.t) (definition : JS.value)
  : JS.completion instance :=
  match JS.Get definition "speed" with
  | JS.TypeError => JS.TypeError
  | JS.Normal s =>
      JS.Normal
        {| owner := owner;
           speed := JS.or s (JS.VNum 0.3%float);
           state := State.Build false false false false false;
           moving := false;
           left := false;
           right := false;
           up := false;
           down := false;
           upLeft := false;
           upRight := false;
           downLeft := false;
           downRight := false |}
  end.

(** A handler: called with the message's payload on the instance, it
    returns the mutated instance and how the call completed. *)
Definition handler : Type := JS.value -> instance -> instance * JS.completion unit.

(** [processDirection(direction)]: the handler of a directional message. *)
Definition processDirection (direction : string) : handler :=
  fun state this =>
    if JS.ToBoolean state then
      match JS.Get state "pressed" with
      | JS.Normal pressed =>
          if JS.ToBoolean pressed
          then (put direction true this, JS.Normal tt)
          else (put direction false this, JS.Normal tt)
      | JS.TypeError => (this, JS.TypeError)
      end
    else (put direction true this, JS.Normal tt).

(** The sixteen assignments [proto[id] = processDirection(direction)]:
    each message id with the flag its handler writes. *)
Definition directions : list (string * string) :=
  [("go-down", "down");            ("go-south", "down");
   ("go-down-left", "downLeft");   ("go-southwest", "downLeft");
   ("go-left", "left");            ("go-west", "left");
   ("go-up-left", "upLeft");       ("go-northwest", "upLeft");
   ("go-up", "up");                ("go-north", "up");
   ("go-up-right", "upRight");     ("go-northeast", "upRight");
   ("go-right", "right");          ("go-east", "right");
   ("go-down-right", "downRight"); ("go-southeast", "downRight")].

(** The body of [stop]'s conditional: all eight flags are cleared. *)
Definition clear (this : instance) : instance :=
  Instance (owner this) (speed this) (state this) (moving this)
    false false false false false false false false.

(** [proto['stop']]; the test is [!state || state.pressed]. *)
Definition stop : handler :=
  fun state this =>
    if negb (JS.ToBoolean state) then (clear this, JS.Normal tt)
    else
      match JS.Get state "pressed" with
      | JS.Normal pressed =>
          if JS.ToBoolean pressed
          then (clear this, JS.Normal tt)
          else (this, JS.Normal tt)
      | JS.TypeError => (this, JS.TypeError)
      end.

Section Component.

Context {host : JS.Host}.

(** The locals of [handle-logic] that are derived from the flags. *)
Record derived : Type := Derived
  { d_up : bool; d_upLeft : bool; d_left : bool; d_downLeft : bool;
    d_down : bool; d_downRight : bool; d_right : bool; d_upRight : bool }.

Definition derive (this : instance) : derived :=
  {| d_up        := up this        || upLeft this || downLeft this;
     d_upLeft    := upLeft this    || (up this   && left this);
     d_left      := left this      || upLeft this || downLeft this;
     d_downLeft  := downLeft this  || (down this && left this);
     d_down      := down this      || downLeft this || downRight this;
     d_downRight := downRight this || (down this && right this);
     d_right     := right this     || upRight this || downRight this;
     d_upRight   := upRight this   || (up this   && right this) |}.

(** The chain of conditionals of [handle-logic]: the values of [vX] and
    [vY] after it, and the value it assigns to [this.moving]. *)
Definition velocity (this : instance) : float * float * bool :=
  let d := derive this in
  let s := JS.ToNumber (speed this) in
  if up this && down this then (0, 0, false)%float
  else if left this && right this then (0, 0, false)%float
  else if d_upLeft d then (- s / 1.414, - s / 1.414, true)%float
  else if d_upRight d then (s / 1.414, - s / 1.414, true)%float
  else if d_downLeft d then (- s / 1.414, s / 1.414, true)%float
  else if d_downRight d then (s / 1.414, s / 1.414, true)%float
  else if left this then (- s, 0, true)%float
  else if right this then (s, 0, true)%float
  else if up this then (0, - s, true)%float
  else if down this then (0, s, true)%float
  else (0, 0, false)%float.

(** The five comparisons of [this.state] with the new values: the updated
    snapshot and [stateChanged]. *)
Definition refresh (moving' up' right' down' left' : bool) (st : State.t)
  : State.t * bool :=
  let changed := false in
  let '(st, changed) :=
    if negb (Bool.eqb (State.moving st) moving')
    then (State.set_moving moving' st, true) else (st, changed) in
  let '(st, changed) :=
    if negb (Bool.eqb (State.up st) up')
    then (State.set_up up' st, true) else (st, changed) in
  let '(st, changed) :=
    if negb (Bool.eqb (State.right st) right')
    then (State.set_right right' st, true) else (st, changed) in
  let '(st, changed) :=
    if negb (Bool.eqb (State.down st) down')
    then (State.set_down down' st, true) else (st, changed) in
  let '(st, changed) :=
    if negb (Bool.eqb (State.left st) left')
    then (State.set_left left' st, true) else (st, changed) in
  (st, changed).

(** The five values [handle-logic] compares [this.state] with, as one
    snapshot: the new [this.moving] and the derived cardinals. *)
Definition snapshot (this : instance) : State.t :=
  let d := derive this in
  {| State.moving := snd (velocity this);
     State.left := d_left d;
     State.right := d_right d;
     State.up := d_up d;
     State.down := d_down d |}.

(** [proto['handle-logic']]. [this.moving] is assigned before
    [resp.deltaT] is read, so it is kept when that read throws. *)
Definition handle_logic : handler :=
  fun resp this =>
    let d := derive this in
    let '(vX, vY, moving') := velocity this in
    let this := set_moving moving' this in
    match JS.Get resp "deltaT" with
    | JS.TypeError => (this, JS.TypeError)
    | JS.Normal deltaT =>
        let o := owner this in
        let o := Entity.set_x (Entity.x o + vX * JS.ToNumber deltaT)%float o in
        let o := Entity.set_y (Entity.y o + vY * JS.ToNumber deltaT)%float o in
        let '(st, stateChanged) :=
          refresh (moving this) (d_up d) (d_right d) (d_down d) (d_left d)
            (state this) in
        let o := if stateChanged then Entity.trigger "logical-state" st o else o in
        (set_owner o (set_state st this), JS.Normal tt)
    end.

(** The prototype's message handlers, by message id: [handle-logic], the
    sixteen directional ids of [directions], and [stop]. These are the
    methods a bound listener can reach, since listeners are bound for
    these ids only. The prototype's other methods ([destroy],
    [addListeners], [removeListeners], [addListener], [removeListener]) are
    no message handlers and are not looked up here: they are the functions
    of [Binding]. *)
Definition proto (messageId : string) : option handler :=
  if messageId =? "handle-logic" then Some handle_logic
  else
    match find (fun entry => fst entry =? messageId) directions with
    | Some (_, direction) => Some (processDirection direction)
    | None => if messageId =? "stop" then Some stop else None
    end.

(** A message triggered on the owner reaches the component through the
    function [addListener] bound for it: [self[messageId](value, debug)]. *)
Definition deliver (messageId : string) (value : JS.value) (this : instance)
  : instance * JS.completion unit :=
  if existsb (String.eqb messageId) listeners then
    match proto messageId with
    | Some h => h value this
    | None => (this, JS.TypeError)
    end
  else (this, JS.Normal tt).

(** Messages delivered one after the other; the instance is the one the
    previous message left, however that call completed. *)
Fixpoint run (messages : list (string * JS.value)) (this : instance) : instance :=
  match messages with
  | [] => this
  | (messageId, value) :: rest => run rest (fst (deliver messageId value this))
  end.

End Component.

(** The derivation table as the specification words it, for comparison
    with [derive]: a cardinal is set by its own flag or by one of the two
    diagonals named in its row, where a diagonal is its own flag or both
    adjacent cardinal flags. *)
Definition table_up (this : instance) : bool :=
  up this || d_upLeft (derive this) || d_downLeft (derive this).
Definition table_left (this : instance) : bool :=
  left this || d_upLeft (derive this) || d_downLeft (derive this).
Definition table_down (this : instance) : bool :=
  down this || d_downLeft (derive this) || d_downRight (derive this).
Definition table_right (this : instance) : bool :=
  right this || d_upRight (derive this) || d_downRight (derive this).

(** ** Listeners: what the component binds on its owner, and unbinds *)

Module Binding.

(** A function handed to [owner.bind]: the closure [addListener] creates,
    which calls [self[messageId]] (two closures from two calls are two
    functions: [serial] counts the closures created so far), or the
    [callback] that was passed in. *)
Inductive func : Type :=
| Forwarder (serial : nat) (messageId : string)
| Given (callback : nat).

(** A call the component makes on its owner. *)
Inductive call : Type :=
| Bind (messageId : string) (f : func)
| Unbind (messageId : string) (f : func).

(** The calls made on the owner so far, oldest first; the properties of
    [this.listeners], in creation order; the number of closures created. *)
Record t : Type := Build
  { calls : list call;
    listeners : list (string * func);
    closures : nat }.

(** [this.listeners = []], before any call. *)
Definition empty : t := Build [] [] 0.

(** [this.listeners] is an Array. Assigning to one of its properties adds
    or overwrites an enumerable property of its own for every key but two:
    the key [length] (the assignment of a function to it throws) and the
    key [__proto__] (it replaces the prototype and adds no property). The
    functions below describe the object for the other keys, the ordinary
    ones. *)
Definition ordinary (messageId : string) : bool :=
  negb (messageId =? "length") && negb (messageId =? "__proto__").

(** [this.listeners[P] = f] for an ordinary key: a property that exists
    keeps its place and takes the new value, a new one is added last. *)
Fixpoint assign (P : string) (f : func) (props : list (string * func))
  : list (string * func) :=
  match props with
  | [] => [(P, f)]
  | (k, v) :: rest =>
      if k =? P then (k, f) :: rest else (k, v) :: assign P f rest
  end.

(** [proto.addListener]; [callback] is [None] when none (or a falsy one)
    is passed. *)
Definition addListener (messageId : string) (callback : option nat) (b : t) : t :=
  let func :=
    match callback with
    | Some c => Given c
    | None => Forwarder (closures b) messageId
    end in
  {| calls := calls b ++ [Bind messageId func];
     listeners := assign messageId func (listeners b);
     closures := match callback with
                 | Some _ => closures b
                 | None => S (closures b)
                 end |}.

(** [proto.addListeners]: one [addListener] per element of the array. *)
Definition addListeners (messageIds : list string) (b : t) : t :=
  fold_left (fun b messageId => addListener messageId None b) messageIds b.

(** [proto.removeListener]. *)
Definition removeListener (boundMessageId : string) (callback : func) (b : t) : t :=
  {| calls := calls b ++ [Unbind boundMessageId callback];
     listeners := listeners b;
     closures := closures b |}.

(** [proto.removeListeners]: one [removeListener] per property of the
    object it is given. The loop is a [for ... in] over the object's own
    properties (the built-in prototypes have no enumerable property of
    their own); they are taken in creation order, as engines enumerate
    keys that are not array indices. *)
Definition removeListeners (listeners : list (string * func)) (b : t) : t :=
  fold_left (fun b entry => removeListener (fst entry) (snd entry) b) listeners b.

(** [proto.destroy]. *)
Definition destroy (b : t) : t := removeListeners (listeners b) b.

(** The pairs bound, and the pairs unbound, in the order of the calls. *)
Definition bound (b : t) : list (string * func) :=
  flat_map (fun c => match c with Bind m f => [(m, f)] | Unbind _ _ => [] end)
    (calls b).

Definition unbound (b : t) : list (string * func) :=
  flat_map (fun c => match c with Unbind m f => [(m, f)] | Bind _ _ => [] end)
    (calls b).

End Binding.

(** The constructor with its calls on the owner: the listeners are bound
    before [definition.speed] is read. *)
Definition construct (owner : Entity.t) (definition : JS.value)
  : Binding.t * JS.completion instance :=
  (Binding.addListeners listeners Binding.empty, component owner definition).

(** The names of the eight flags. *)
Definition flag_names : list string :=
  ["left"; "right"; "up"; "down"; "upLeft"; "upRight"; "downLeft"; "downRight"].

(** ** Concrete instances and payloads used by the examples below *)

Module Scenario.

(** A host whose strings and objects all convert to [NaN]; the scenarios
    only use numeric speeds and tick lengths. *)
Definition host : JS.Host :=
  {| JS.StringToNumber := fun _ => nan; JS.ObjectToNumber := fun _ => nan |}.

Definition entity : Entity.t := Entity.Build 100 50 [].

(** What the constructor builds for [entity] from a definition without
    [speed]. *)
Definition fresh : instance :=
  Instance entity (JS.VNum 0.3%float)
    (State.Build false false false false false) false
    false false false false false false false false.

Definition tick (deltaT : float) : JS.value := JS.VObj [("deltaT", JS.VNum deltaT)].

Definition pressed (b : bool) : JS.value := JS.VObj [("pressed", JS.VBool b)].

(** [fresh] after a payload-free directional message for [direction]. *)
Definition heading (direction : string) : instance := put direction true fresh.

(** Every flag set at once. *)
Definition all_set : instance :=
  Instance entity (JS.VNum 0.3%float)
    (State.Build false false false false false) false
    true true true true true true true true.

End Scenario.

(** ** Numbers: the facts about binary64 arithmetic the handlers rely on *)

Lemma SFeqb_finite_refl (s : bool) (m : positive) (e : Z) :
  SFeqb (S754_finite s m e) (S754_finite s m e) = true.
Proof.
  unfold SFeqb, SFcompare.
  rewrite Z.compare_refl.
  assert (H : Pos.compare_cont Eq m m = Eq) by apply Pos.compare_refl.
  rewrite H. destruct s; reflexivity.
Qed.

Lemma is_zero_spec (z : float) :
  is_zero z = true <-> exists s, Prim2SF z = S754_zero s.
Proof.
  unfold is_zero. rewrite eqb_spec.
  change (Prim2SF zero) with (S754_zero false).
  destruct (Prim2SF z) as [s | s | | s m e]; cbn; split;
    try (intros [? ?]; discriminate); try discriminate; eauto;
    destruct s; discriminate.
Qed.

Lemma is_finite_spec (d : float) :
  is_finite d = true ->
  (exists s, Prim2SF d = S754_zero s) \/
  (exists s m e, Prim2SF d = S754_finite s m e).
Proof.
  unfold is_finite, is_nan, is_infinity.
  rewrite !eqb_spec, abs_spec.
  change (Prim2SF infinity) with (S754_infinity false).
  destruct (Prim2SF d) as [s | s | | s m e]; cbn; intros H;
    try discriminate; eauto.
  rewrite orb_true_r in H. discriminate.
Qed.

Lemma is_nan_spec (a : float) : is_nan a = true <-> Prim2SF a = S754_nan.
Proof.
  unfold is_nan. rewrite eqb_spec.
  destruct (Prim2SF a) as [s | s | | s m e].
  - split; discriminate.
  - destruct s; split; discriminate.
  - split; reflexivity.
  - rewrite SFeqb_finite_refl. split; discriminate.
Qed.

(** What [SameValueZero] identifies: equal numbers, and the two zeros. *)
Lemma SameValueZero_spec (a b : float) :
  JS.SameValueZero a b = true ->
  a = b \/ (is_zero a = true /\ is_zero b = true).
Proof.
  unfold JS.SameValueZero. intros H. apply orb_prop in H.
  destruct H as [H | H].
  - rewrite eqb_spec in H.
    destruct (Prim2SF a) as [sa | sa | | sa ma ea] eqn:Ea,
             (Prim2SF b) as [sb | sb | | sb mb eb] eqn:Eb;
      try discriminate H;
      try (destruct sa; discriminate H); try (destruct sb; discriminate H).
    + right. split; apply is_zero_spec; eauto.
    + left. apply Prim2SF_inj. rewrite Ea, Eb.
      destruct sa, sb; try discriminate H; reflexivity.
    + left. apply Prim2SF_inj. rewrite Ea, Eb.
      unfold SFeqb, SFcompare in H.
      destruct sa, sb; try discriminate H;
        destruct (Z.compare ea eb) eqn:Ec; try discriminate H;
        apply Z.compare_eq in Ec; subst eb;
        destruct (Pos.compare_cont Eq ma mb) eqn:Em; try discriminate H;
        apply Pos.compare_eq in Em; subst mb; reflexivity.
  - apply andb_prop in H. destruct H as [Ha Hb]. left.
    apply is_nan_spec in Ha, Hb.
    apply Prim2SF_inj. congruence.
Qed.

(** Zero times a finite number is a zero (of either sign). *)
Lemma mul_zero_finite (d : float) :
  is_finite d = true -> is_zero (0 * d) = true.
Proof.
  intros H. apply is_zero_spec. rewrite mul_spec.
  change (Prim2SF 0) with (S754_zero false).
  destruct (is_finite_spec d H) as [[s E] | (s & m & e & E)];
    rewrite E; cbn; eauto.
Qed.

(** Adding a zero leaves a number the same, up to the sign of zero. *)
Lemma add_zero_same (a z : float) :
  is_zero z = true -> JS.SameValueZero (a + z) a = true.
Proof.
  intros H. apply is_zero_spec in H. destruct H as [s E].
  unfold JS.SameValueZero, is_nan. rewrite !eqb_spec, add_spec, E.
  destruct (Prim2SF a) as [sa | sa | | sa m e]; unfold SF64add, SFadd.
  - destruct sa, s; reflexivity.
  - destruct sa; reflexivity.
  - reflexivity.
  - rewrite SFeqb_finite_refl. reflexivity.
Qed.

(** [a += 0 * d] leaves [a] the same when [d] is finite. *)
Lemma add_zero_mul_same (a d : float) :
  is_finite d = true -> JS.SameValueZero (a + 0 * d) a = true.
Proof. intros H. apply add_zero_same, mul_zero_finite, H. Qed.

(** Subtraction is the addition of the opposite. *)
Lemma sub_add_opp (a b : float) : (a - b = a + - b)%float.
Proof.
  apply Prim2SF_inj. rewrite sub_spec, add_spec, opp_spec.
  destruct (Prim2SF a) as [sa | sa | | sa ma ea],
           (Prim2SF b) as [sb | sb | | sb mb eb]; cbn;
    try reflexivity; destruct sa, sb; reflexivity.
Qed.

(** ** The snapshot and the handlers that never throw *)

Lemma State_eqb_eq (s1 s2 : State.t) : State.eqb s1 s2 = true <-> s1 = s2.
Proof.
  destruct s1 as [m1 l1 r1 u1 d1], s2 as [m2 l2 r2 u2 d2].
  unfold State.eqb; cbn. split.
  - intros H. repeat (apply andb_prop in H; destruct H as [H ?]).
    repeat match goal with
           | E : Bool.eqb _ _ = true |- _ => apply eqb_prop in E
           end.
    subst. reflexivity.
  - intros H. inversion H; subst. now rewrite !eqb_reflx.
Qed.

Section Properties.

Context {host : JS.Host}.

(** The five comparisons store the new values and report whether any
    field differed. *)
Lemma refresh_spec (m u r d l : bool) (st : State.t) :
  refresh m u r d l st =
  (State.Build m l r u d, negb (State.eqb st (State.Build m l r u d))).
Proof.
  destruct st as [m0 l0 r0 u0 d0].
  destruct m, u, r, d, l, m0, l0, r0, u0, d0; reflexivity.
Qed.

(** A tick whose payload has a readable [deltaT], as one equation. *)
Lemma handle_logic_eq (resp deltaT : JS.value) (this : instance) :
  JS.Get resp "deltaT" = JS.Normal deltaT ->
  handle_logic resp this =
  (let st := snapshot this in
   let o := owner this in
   {| owner :=
        {| Entity.x := (Entity.x o + fst (fst (velocity this)) * JS.ToNumber deltaT)%float;
           Entity.y := (Entity.y o + snd (fst (velocity this)) * JS.ToNumber deltaT)%float;
           Entity.triggered :=
             Entity.triggered o ++
             (if State.eqb (state this) st then [] else [("logical-state", st)]) |};
      speed := speed this;
      state := st;
      moving := snd (velocity this);
      left := left this; right := right this; up := up this; down := down this;
      upLeft := upLeft this; upRight := upRight this;
      downLeft := downLeft this; downRight := downRight this |},
   JS.Normal tt).
Proof.
  intros HG. unfold handle_logic, snapshot. rewrite HG.
  destruct (velocity this) as [[vX vY] mv] eqn:EV.
  cbn [fst snd set_moving moving owner state speed left right up down
       upLeft upRight downLeft downRight].
  rewrite refresh_spec.
  cbn [State.moving State.left State.right State.up State.down].
  destruct (State.eqb (state this) _); cbn.
  - rewrite app_nil_r. destruct (owner this); reflexivity.
  - reflexivity.
Qed.

(** *** Directional messages and [stop] *)

(** Neither kind of handler touches anything but the eight flags. *)
Lemma put_frame (direction : string) (b : bool) (this : instance) :
  owner (put direction b this) = owner this /\
  speed (put direction b this) = speed this /\
  state (put direction b this) = state this /\
  moving (put direction b this) = moving this.
Proof. repeat split. Qed.

Lemma processDirection_owner (direction : string) (payload : JS.value)
    (this : instance) :
  owner (fst (processDirection direction payload this)) = owner this.
Proof.
  unfold processDirection.
  destruct (JS.ToBoolean payload); [| reflexivity].
  destruct (JS.Get payload "pressed") as [pressed |]; [| reflexivity].
  destruct (JS.ToBoolean pressed); reflexivity.
Qed.

Lemma stop_owner (payload : JS.value) (this : instance) :
  owner (fst (stop payload this)) = owner this.
Proof.
  unfold stop.
  destruct (JS.ToBoolean payload); [| reflexivity].
  destruct (JS.Get payload "pressed") as [pressed |]; [| reflexivity].
  destruct (JS.ToBoolean pressed); reflexivity.
Qed.

(** The table holds sixteen distinct message ids, all of them among the
    ids the constructor listens for. *)
Lemma directions_sixteen :
  List.length directions = 16 /\
  NoDup (map fst directions) /\
  forall messageId direction,
    In (messageId, direction) directions -> In messageId listeners.
Proof.
  split; [reflexivity |]. split.
  - cbn. repeat (constructor; [cbn; intuition discriminate |]). constructor.
  - intros messageId direction HIn. cbn in HIn.
    repeat (destruct HIn as [HIn | HIn];
            [injection HIn as <- <-; cbn; tauto |]).
    contradiction.
Qed.

(** C2, as the code has it. For each of the sixteen directional message
    ids, the prototype's handler is [processDirection] of the id's flag;
    called with no payload it sets that flag to [true], whatever the flag
    was, and called with a payload object that has no [pressed] property
    it sets that flag to [false]: the missing [pressed] reads as
    [undefined], which is not truthy. *)
Theorem directional_without_pressed (messageId direction : string) :
  In (messageId, direction) directions ->
  exists h : handler,
    proto messageId = Some h /\
    forall this : instance,
      get (fst (h JS.VUndefined this)) direction = true /\
      forall props : JS.object,
        JS.lookup "pressed" props = None ->
        get (fst (h (JS.VObj props) this)) direction = false.
Proof.
  intros HIn. cbn in HIn.
  repeat (destruct HIn as [HIn | HIn];
          [ inversion HIn; subst; clear HIn;
            eexists; split; [reflexivity |];
            intros this; split; [reflexivity |];
            intros props Hp; unfold processDirection;
            cbn [JS.ToBoolean JS.Get]; rewrite Hp; reflexivity
          | ]).
  contradiction.
Qed.

(** C3. [stop] with no payload, or with a payload whose [pressed] is
    [true], sets all eight flags to [false]; with a payload whose
    [pressed] is [false] it changes nothing. *)
Theorem stop_clears_unless_released (this : instance) :
  flags (fst (stop JS.VUndefined this)) = repeat false 8 /\
  (forall props : JS.object,
      JS.lookup "pressed" props = Some (JS.VBool true) ->
      flags (fst (stop (JS.VObj props) this)) = repeat false 8) /\
  (forall props : JS.object,
      JS.lookup "pressed" props = Some (JS.VBool false) ->
      stop (JS.VObj props) this = (this, JS.Normal tt)).
Proof.
  split; [reflexivity |].
  split; intros props Hp; unfold stop; cbn [JS.ToBoolean JS.Get negb];
    rewrite Hp; reflexivity.
Qed.

(** *** Opposing cardinals *)

(** C1. When [up] and [down] are both set, or [left] and [right] are, the
    chain of conditionals leaves [vX = 0] and [vY = 0] and assigns
    [this.moving = false], whatever the other flags are; and a tick whose
    [deltaT] is a finite number then leaves [owner.x] and [owner.y] the
    same numbers. *)
Theorem opposing_cardinals_cancel (this : instance) :
  (up this && down this) || (left this && right this) = true ->
  velocity this = (0%float, 0%float, false) /\
  forall resp deltaT,
    JS.Get resp "deltaT" = JS.Normal deltaT ->
    is_finite (JS.ToNumber deltaT) = true ->
    let this' := fst (handle_logic resp this) in
    moving this' = false /\
    JS.SameValueZero (Entity.x (owner this')) (Entity.x (owner this)) = true /\
    JS.SameValueZero (Entity.y (owner this')) (Entity.y (owner this)) = true.
Proof.
  intros H.
  assert (HV : velocity this = (0%float, 0%float, false)).
  { unfold velocity.
    destruct (up this && down this); [reflexivity |].
    destruct (left this && right this); [reflexivity | discriminate]. }
  split; [exact HV |].
  intros resp deltaT HG HF this'. subst this'.
  rewrite (handle_logic_eq _ _ _ HG), HV. cbn.
  repeat split; apply add_zero_mul_same, HF.
Qed.

(** [this.moving] after a tick is what the chain of conditionals assigned,
    also when reading [resp.deltaT] throws. *)
Lemma handle_logic_moving (resp : JS.value) (this : instance) :
  moving (fst (handle_logic resp this)) = snd (velocity this).
Proof.
  destruct (JS.Get resp "deltaT") as [deltaT |] eqn:HG.
  - rewrite (handle_logic_eq _ _ _ HG). reflexivity.
  - unfold handle_logic. rewrite HG.
    destruct (velocity this) as [[vX vY] mv]. reflexivity.
Qed.

(** *** Diagonals *)

(** C4, as the code has it. With neither opposing pair set, the first
    active diagonal in the order upLeft, upRight, downLeft, downRight (its
    own flag, or both adjacent cardinals) decides the velocity: both
    components are the speed divided by the constant 1.414, negated along
    each axis the diagonal points back on, and [this.moving] is [true]. *)
Theorem diagonal_velocity (this : instance) :
  up this && down this = false ->
  left this && right this = false ->
  let d := derive this in
  let s := JS.ToNumber (speed this) in
  (d_upLeft d = true ->
   velocity this = (- s / 1.414, - s / 1.414, true)%float) /\
  (d_upLeft d = false -> d_upRight d = true ->
   velocity this = (s / 1.414, - s / 1.414, true)%float) /\
  (d_upLeft d = false -> d_upRight d = false -> d_downLeft d = true ->
   velocity this = (- s / 1.414, s / 1.414, true)%float) /\
  (d_upLeft d = false -> d_upRight d = false -> d_downLeft d = false ->
   d_downRight d = true ->
   velocity this = (s / 1.414, s / 1.414, true)%float) /\
  (d_upLeft d || d_upRight d || d_downLeft d || d_downRight d = true ->
   forall resp, moving (fst (handle_logic resp this)) = true).
Proof.
  intros HV HH d s. subst d s.
  repeat split.
  - intros H1. unfold velocity. cbv zeta. rewrite HV, HH, H1. reflexivity.
  - intros H1 H2. unfold velocity. cbv zeta. rewrite HV, HH, H1, H2.
    reflexivity.
  - intros H1 H2 H3. unfold velocity. cbv zeta.
    rewrite HV, HH, H1, H2, H3. reflexivity.
  - intros H1 H2 H3 H4. unfold velocity. cbv zeta.
    rewrite HV, HH, H1, H2, H3, H4. reflexivity.
  - intros H resp. rewrite handle_logic_moving.
    unfold velocity. cbv zeta. rewrite HV, HH.
    destruct (d_upLeft _), (d_upRight _), (d_downLeft _), (d_downRight _);
      try reflexivity; discriminate.
Qed.

(** *** Single cardinals *)

(** What the constructor returns, when it returns. *)
Lemma component_eq (o : Entity.t) (definition : JS.value) (this : instance) :
  component o definition = JS.Normal this ->
  exists s,
    JS.Get definition "speed" = JS.Normal s /\
    this = Instance o (JS.or s (JS.VNum 0.3%float))
             (State.Build false false false false false) false
             false false false false false false false false.
Proof.
  unfold component. destruct (JS.Get definition "speed") as [s |];
    [| discriminate].
  intros H. injection H as <-. exists s. split; reflexivity.
Qed.

(** C5. With exactly one cardinal flag set and every other flag clear, the
    velocity is the speed along that flag's axis (negated for left and up),
    zero along the other axis, and [this.moving] is [true]. And from a
    newly built component of speed 0.3: after [go-up] with no payload, the
    tick of [deltaT = 10] takes 3 off [owner.y], leaves [owner.x] the same
    number, and triggers [logical-state] once, with
    [{moving: true, up: true, down: false, left: false, right: false}]. *)
Theorem single_cardinal_velocity :
  (forall this : instance,
      let s := JS.ToNumber (speed this) in
      (flags this = [true; false; false; false; false; false; false; false] ->
       velocity this = (- s, 0, true)%float) /\
      (flags this = [false; true; false; false; false; false; false; false] ->
       velocity this = (s, 0, true)%float) /\
      (flags this = [false; false; true; false; false; false; false; false] ->
       velocity this = (0, - s, true)%float) /\
      (flags this = [false; false; false; true; false; false; false; false] ->
       velocity this = (0, s, true)%float)) /\
  (forall (o : Entity.t) (definition : JS.value) (this0 : instance),
      component o definition = JS.Normal this0 ->
      speed this0 = JS.VNum 0.3%float ->
      let this' :=
        run [("go-up", JS.VUndefined);
             ("handle-logic", JS.VObj [("deltaT", JS.VNum 10%float)])] this0 in
      Entity.y (owner this') = (Entity.y o - 3)%float /\
      JS.SameValueZero (Entity.x (owner this')) (Entity.x o) = true /\
      Entity.triggered (owner this') =
      (Entity.triggered o ++
       [("logical-state",
         {| State.moving := true; State.left := false; State.right := false;
            State.up := true; State.down := false |})])%list).
Proof.
  split.
  - intros [o sp st mv l r u d ul ur dl dr] s. subst s.
    unfold flags; cbn [left right up down upLeft upRight downLeft downRight speed].
    repeat split; intros H; injection H as -> -> -> -> -> -> -> ->;
      reflexivity.
  - intros o definition this0 HC HS this'. subst this'.
    destruct (component_eq _ _ _ HC) as (s & _ & ->).
    cbn [speed] in HS. rewrite HS.
    assert (E : run [("go-up", JS.VUndefined);
                     ("handle-logic", JS.VObj [("deltaT", JS.VNum 10%float)])]
                  (Instance o (JS.VNum 0.3%float)
                     (State.Build false false false false false) false
                     false false false false false false false false)
                = Instance
                    (Entity.Build (Entity.x o + 0 * 10)%float
                       (Entity.y o + - 3)%float
                       (Entity.triggered o ++
                        [("logical-state",
                          State.Build true false false true false)]))
                    (JS.VNum 0.3%float)
                    (State.Build true false false true false) true
                    false false true false false false false false)
      by reflexivity.
    rewrite E. cbn [owner Entity.x Entity.y Entity.triggered].
    repeat split.
    + rewrite sub_add_opp. reflexivity.
    + apply add_zero_mul_same. reflexivity.
Qed.

(** *** The broadcast snapshot *)

(** C6, as the code has it. After a tick, the stored snapshot holds the
    derived cardinals, the diagonal terms being the diagonal flags
    themselves: [up] is [this.up || this.upLeft || this.downLeft] (with
    [downLeft], not [upRight]), [left] is
    [this.left || this.upLeft || this.downLeft], [down] is
    [this.down || this.downLeft || this.downRight], [right] is
    [this.right || this.upRight || this.downRight], and [moving] is
    [this.moving]; a [logical-state] triggered by the tick carries that
    snapshot. For [left], [down] and [right] this is the table's row also
    when the row's diagonals are read as derived (own flag, or both
    adjacent cardinals); for [up] it is not. *)
Theorem broadcast_carries_derived (resp deltaT : JS.value) (this : instance) :
  JS.Get resp "deltaT" = JS.Normal deltaT ->
  let this' := fst (handle_logic resp this) in
  State.up (state this') = up this || upLeft this || downLeft this /\
  State.left (state this') = left this || upLeft this || downLeft this /\
  State.down (state this') = down this || downLeft this || downRight this /\
  State.right (state this') = right this || upRight this || downRight this /\
  State.moving (state this') = moving this' /\
  (Entity.triggered (owner this') = Entity.triggered (owner this) \/
   Entity.triggered (owner this') =
   (Entity.triggered (owner this) ++ [("logical-state", state this')])%list) /\
  State.left (state this') = table_left this /\
  State.down (state this') = table_down this /\
  State.right (state this') = table_right this.
Proof.
  intros HG this'. subst this'.
  rewrite (handle_logic_eq _ _ _ HG).
  cbn [fst owner state moving Entity.triggered].
  repeat split.
  - destruct (State.eqb (state this) (snapshot this)).
    + left. apply app_nil_r.
    + right. reflexivity.
  - unfold snapshot, table_left, derive.
    cbn [State.left d_left d_upLeft d_downLeft].
    destruct (left this), (upLeft this), (downLeft this), (up this),
      (down this); reflexivity.
  - unfold snapshot, table_down, derive.
    cbn [State.down d_down d_downLeft d_downRight].
    destruct (down this), (downLeft this), (downRight this), (left this),
      (right this); reflexivity.
  - unfold snapshot, table_right, derive.
    cbn [State.right d_right d_upRight d_downRight].
    destruct (right this), (upRight this), (downRight this), (up this),
      (down this); reflexivity.
Qed.

(** A message other than a tick leaves the owner and the stored snapshot
    as they are. *)
Lemma processDirection_state (direction : string) (payload : JS.value)
    (this : instance) :
  state (fst (processDirection direction payload this)) = state this.
Proof.
  unfold processDirection.
  destruct (JS.ToBoolean payload); [| reflexivity].
  destruct (JS.Get payload "pressed") as [pressed |]; [| reflexivity].
  destruct (JS.ToBoolean pressed); reflexivity.
Qed.

Lemma stop_state (payload : JS.value) (this : instance) :
  state (fst (stop payload this)) = state this.
Proof.
  unfold stop.
  destruct (JS.ToBoolean payload); [| reflexivity].
  destruct (JS.Get payload "pressed") as [pressed |]; [| reflexivity].
  destruct (JS.ToBoolean pressed); reflexivity.
Qed.

Lemma deliver_other_keeps (messageId : string) (value : JS.value)
    (this : instance) :
  messageId <> "handle-logic" ->
  owner (fst (deliver messageId value this)) = owner this /\
  state (fst (deliver messageId value this)) = state this.
Proof.
  intros HN. unfold deliver.
  destruct (existsb (String.eqb messageId) listeners);
    [| split; reflexivity].
  unfold proto.
  destruct (String.eqb_spec messageId "handle-logic") as [E | _];
    [contradiction |].
  destruct (find _ directions) as [[m direction] |].
  - split; [apply processDirection_owner | apply processDirection_state].
  - destruct (messageId =? "stop"); [| split; reflexivity].
    split; [apply stop_owner | apply stop_state].
Qed.

Lemma run_others_keep (messages : list (string * JS.value)) (this : instance) :
  Forall (fun message => fst message <> "handle-logic") messages ->
  owner (run messages this) = owner this /\
  state (run messages this) = state this.
Proof.
  revert this.
  induction messages as [| [messageId value] rest IH]; intros this HF.
  - split; reflexivity.
  - inversion HF as [| ? ? HN HF']; subst. cbn [fst] in HN. cbn [run].
    destruct (IH (fst (deliver messageId value this)) HF') as [IO IS].
    destruct (deliver_other_keeps messageId value this HN) as [DO DS].
    split; congruence.
Qed.

(** C7. A tick stores the new snapshot and triggers [logical-state]
    exactly when the snapshot stored before differs from it, in at least
    one of its five fields; when they agree nothing is triggered. So a tick
    that follows an earlier tick, with any messages but ticks in between,
    triggers [logical-state] exactly when its snapshot differs from the
    earlier tick's. In particular the first tick of a newly built
    component, of [deltaT = 16], triggers nothing and leaves the position
    the same. *)
Theorem logical_state_iff_changed :
  (forall (resp deltaT : JS.value) (this : instance),
      JS.Get resp "deltaT" = JS.Normal deltaT ->
      let this' := fst (handle_logic resp this) in
      state this' = snapshot this /\
      (state this = snapshot this ->
       Entity.triggered (owner this') = Entity.triggered (owner this)) /\
      (state this <> snapshot this ->
       Entity.triggered (owner this') =
       (Entity.triggered (owner this) ++ [("logical-state", snapshot this)])%list)) /\
  (forall (resp1 deltaT1 resp2 deltaT2 : JS.value)
          (between : list (string * JS.value)) (this : instance),
      JS.Get resp1 "deltaT" = JS.Normal deltaT1 ->
      JS.Get resp2 "deltaT" = JS.Normal deltaT2 ->
      Forall (fun message => fst message <> "handle-logic") between ->
      let this1 := fst (handle_logic resp1 this) in
      let this2 := run between this1 in
      let this3 := fst (handle_logic resp2 this2) in
      (snapshot this2 = snapshot this ->
       Entity.triggered (owner this3) = Entity.triggered (owner this1)) /\
      (snapshot this2 <> snapshot this ->
       Entity.triggered (owner this3) =
       (Entity.triggered (owner this1) ++ [("logical-state", snapshot this2)])%list)) /\
  (forall (o : Entity.t) (definition : JS.value) (this0 : instance),
      component o definition = JS.Normal this0 ->
      let o' :=
        owner (fst (handle_logic (JS.VObj [("deltaT", JS.VNum 16%float)]) this0)) in
      Entity.triggered o' = Entity.triggered o /\
      JS.SameValueZero (Entity.x o') (Entity.x o) = true /\
      JS.SameValueZero (Entity.y o') (Entity.y o) = true).
Proof.
  assert (One : forall (resp deltaT : JS.value) (this : instance),
             JS.Get resp "deltaT" = JS.Normal deltaT ->
             state (fst (handle_logic resp this)) = snapshot this /\
             (state this = snapshot this ->
              Entity.triggered (owner (fst (handle_logic resp this))) =
              Entity.triggered (owner this)) /\
             (state this <> snapshot this ->
              Entity.triggered (owner (fst (handle_logic resp this))) =
              (Entity.triggered (owner this) ++
               [("logical-state", snapshot this)])%list)).
  { intros resp deltaT this HG.
    rewrite (handle_logic_eq _ _ _ HG).
    cbn [fst owner state Entity.triggered].
    split; [reflexivity |].
    destruct (State.eqb (state this) (snapshot this)) eqn:HE; split; intros H.
    + apply app_nil_r.
    + apply State_eqb_eq in HE. contradiction.
    + apply State_eqb_eq in H. congruence.
    + reflexivity. }
  split; [exact One |]. split.
  - intros resp1 deltaT1 resp2 deltaT2 between this HG1 HG2 HF this1 this2 this3.
    destruct (One resp1 deltaT1 this HG1) as (S1 & _ & _). fold this1 in S1.
    destruct (run_others_keep between this1 HF) as [KO KS].
    fold this2 in KO, KS.
    destruct (One resp2 deltaT2 this2 HG2) as (_ & Same & Differ).
    fold this3 in Same, Differ.
    rewrite KS, S1, KO in *.
    split; intros H.
    + apply Same. symmetry. exact H.
    + apply Differ. intros E. apply H. symmetry. exact E.
  - intros o definition this0 HC o'. subst o'.
    destruct (component_eq _ _ _ HC) as (s & _ & ->).
    rewrite (handle_logic_eq (JS.VObj [("deltaT", JS.VNum 16%float)])
               (JS.VNum 16%float) _ eq_refl).
    cbn [fst owner Entity.x Entity.y Entity.triggered].
    repeat split.
    + apply app_nil_r.
    + apply add_zero_mul_same. reflexivity.
    + apply add_zero_mul_same. reflexivity.
Qed.

(** *** What a tick writes *)

(** C8. A tick adds [vX * deltaT] to [owner.x] and [vY * deltaT] to
    [owner.y], whatever the velocity is, and leaves the eight flags and
    [speed] as they were. *)
Theorem tick_adds_and_keeps_flags (resp deltaT : JS.value) (this : instance) :
  JS.Get resp "deltaT" = JS.Normal deltaT ->
  let this' := fst (handle_logic resp this) in
  let vX := fst (fst (velocity this)) in
  let vY := snd (fst (velocity this)) in
  Entity.x (owner this') = (Entity.x (owner this) + vX * JS.ToNumber deltaT)%float /\
  Entity.y (owner this') = (Entity.y (owner this) + vY * JS.ToNumber deltaT)%float /\
  flags this' = flags this /\
  speed this' = speed this.
Proof.
  intros HG this' vX vY. subst this' vX vY.
  rewrite (handle_logic_eq _ _ _ HG). repeat split.
Qed.

(** *** Notifications *)

(** The handlers of the prototype are of three kinds. *)
Lemma proto_cases (messageId : string) (h : handler) :
  proto messageId = Some h ->
  h = handle_logic \/ (exists direction, h = processDirection direction) \/ h = stop.
Proof.
  unfold proto.
  destruct (messageId =? "handle-logic").
  - intros H. injection H as <-. left. reflexivity.
  - destruct (find _ directions) as [[m direction] |].
    + intros H. injection H as <-. right. left. exists direction. reflexivity.
    + destruct (messageId =? "stop"); [| discriminate].
      intros H. injection H as <-. right. right. reflexivity.
Qed.

(** What one tick triggers: nothing, or one [logical-state]. *)
Lemma handle_logic_triggered (resp : JS.value) (this : instance) :
  exists events,
    Entity.triggered (owner (fst (handle_logic resp this))) =
    (Entity.triggered (owner this) ++ events)%list /\
    Forall (fun event => fst event = "logical-state") events.
Proof.
  destruct (JS.Get resp "deltaT") as [deltaT |] eqn:HG.
  - rewrite (handle_logic_eq _ _ _ HG). cbn [fst owner Entity.triggered].
    eexists. split; [reflexivity |].
    destruct (State.eqb (state this) (snapshot this)); repeat constructor.
  - exists []. split; [| constructor].
    unfold handle_logic. rewrite HG.
    destruct (velocity this) as [[vX vY] mv]. cbn. now rewrite app_nil_r.
Qed.

Lemma deliver_triggered (messageId : string) (value : JS.value)
    (this : instance) :
  exists events,
    Entity.triggered (owner (fst (deliver messageId value this))) =
    (Entity.triggered (owner this) ++ events)%list /\
    Forall (fun event => fst event = "logical-state") events.
Proof.
  assert (Same : forall this' : instance,
             owner this' = owner this ->
             exists events,
               Entity.triggered (owner this') =
               (Entity.triggered (owner this) ++ events)%list /\
               Forall (fun event => fst event = "logical-state") events).
  { intros this' ->. exists []. split; [now rewrite app_nil_r | constructor]. }
  unfold deliver.
  destruct (existsb (String.eqb messageId) listeners); [| now apply Same].
  destruct (proto messageId) as [h |] eqn:HP; [| now apply Same].
  destruct (proto_cases _ _ HP) as [-> | [[direction ->] | ->]].
  - apply handle_logic_triggered.
  - apply Same, processDirection_owner.
  - apply Same, stop_owner.
Qed.

(** C9. Whatever messages are delivered, with whatever payloads, every
    notification the component triggers on its owner is [logical-state]:
    [stopped] and [moving] are never triggered. *)
Theorem only_logical_state_triggered (messages : list (string * JS.value))
    (this : instance) :
  exists events,
    Entity.triggered (owner (run messages this)) =
    (Entity.triggered (owner this) ++ events)%list /\
    Forall (fun event => fst event = "logical-state") events /\
    ~ In "stopped" (map fst events) /\ ~ In "moving" (map fst events).
Proof.
  assert (Core : exists events,
             Entity.triggered (owner (run messages this)) =
             (Entity.triggered (owner this) ++ events)%list /\
             Forall (fun event => fst event = "logical-state") events).
  { revert this.
    induction messages as [| [messageId value] rest IH]; intros this.
    - exists []. split; [now rewrite app_nil_r | constructor].
    - cbn [run].
      destruct (deliver_triggered messageId value this) as (ev1 & E1 & F1).
      destruct (IH (fst (deliver messageId value this))) as (ev2 & E2 & F2).
      exists (ev1 ++ ev2)%list. split.
      + rewrite E2, E1, app_assoc. reflexivity.
      + apply Forall_app. split; assumption. }
  destruct Core as (events & E & F). exists events.
  split; [exact E |]. split; [exact F |].
  rewrite Forall_forall in F.
  split; intros HIn; apply in_map_iff in HIn;
    destruct HIn as (event & Hname & HIn);
    rewrite (F _ HIn) in Hname; discriminate.
Qed.

(** *** Construction *)

(** C10. The constructor stores [definition.speed || .3]: when the
    definition's [speed] is falsy the component's speed is 0.3. A missing
    [speed] reads as [undefined], and [undefined], [0], [-0], [NaN],
    [null], the empty string and [false] are all falsy, so a speed of
    exactly 0 cannot be configured. *)
Theorem falsy_speed_defaults :
  (forall (o : Entity.t) (definition s : JS.value),
      JS.Get definition "speed" = JS.Normal s ->
      exists this,
        component o definition = JS.Normal this /\
        speed this = JS.or s (JS.VNum 0.3%float) /\
        (JS.ToBoolean s = false -> speed this = JS.VNum 0.3%float)) /\
  (forall props : JS.object,
      JS.lookup "speed" props = None ->
      JS.Get (JS.VObj props) "speed" = JS.Normal JS.VUndefined) /\
  Forall (fun s => JS.ToBoolean s = false)
    [JS.VUndefined; JS.VNum 0%float; JS.VNum (-0)%float; JS.VNum nan;
     JS.VNull; JS.VStr ""; JS.VBool false].
Proof.
  split; [| split].
  - intros o definition s HG. unfold component. rewrite HG.
    eexists. split; [reflexivity |]. cbn [speed]. split; [reflexivity |].
    intros HF. unfold JS.or. rewrite HF. reflexivity.
  - intros props HL. cbn [JS.Get]. rewrite HL. reflexivity.
  - repeat constructor.
Qed.

End Properties.

(** ** The properties at the instances of [Scenario] *)

(** C1 at an instance with every flag set, for a tick of 16: the entity
    stays at (100, 50). *)
Lemma opposing_cardinals_cancel_witness :
  velocity (host := Scenario.host) Scenario.all_set = (0%float, 0%float, false) /\
  moving (fst (handle_logic (host := Scenario.host) (Scenario.tick 16)
                 Scenario.all_set)) = false /\
  JS.SameValueZero
    (Entity.x (owner (fst (handle_logic (host := Scenario.host)
                             (Scenario.tick 16) Scenario.all_set)))) 100 = true /\
  JS.SameValueZero
    (Entity.y (owner (fst (handle_logic (host := Scenario.host)
                             (Scenario.tick 16) Scenario.all_set)))) 50 = true.
Proof.
  destruct (opposing_cardinals_cancel (host := Scenario.host) Scenario.all_set
              eq_refl) as [HV HT].
  split; [exact HV |].
  exact (HT (Scenario.tick 16) (JS.VNum 16) eq_refl eq_refl).
Defined.

(** C2 for [go-northwest], whose flag is [upLeft]. *)
Lemma directional_without_pressed_witness :
  exists h : handler,
    proto (host := Scenario.host) "go-northwest" = Some h /\
    forall this : instance,
      get (fst (h JS.VUndefined this)) "upLeft" = true /\
      forall props : JS.object,
        JS.lookup "pressed" props = None ->
        get (fst (h (JS.VObj props) this)) "upLeft" = false.
Proof.
  apply (directional_without_pressed (host := Scenario.host)
           "go-northwest" "upLeft").
  cbn. tauto.
Defined.

(** The claim C2 makes of a payload without [pressed] fails: [go-up]
    delivered with the empty object to an instance whose [up] is set leaves
    [up] cleared, not set. *)
Lemma payload_without_pressed_clears :
  JS.HasProperty "pressed" [] = false /\
  up (Scenario.heading "up") = true /\
  up (fst (deliver (host := Scenario.host) "go-up" (JS.VObj [])
             (Scenario.heading "up"))) = false.
Proof. repeat split. Qed.

(** C3 at an instance with every flag set. *)
Lemma stop_clears_unless_released_witness :
  flags (fst (stop (Scenario.pressed true) Scenario.all_set)) = repeat false 8 /\
  stop (Scenario.pressed false) Scenario.all_set = (Scenario.all_set, JS.Normal tt).
Proof.
  destruct (stop_clears_unless_released Scenario.all_set) as (_ & HT & HF).
  split; [apply HT | apply HF]; reflexivity.
Defined.

(** The magnitude C4 names is not the one the code computes: heading
    upLeft at speed 0.3, both components are [-(0.3 / 1.414)], which lies
    above 0.21216, while [0.3 / sqrt 2] lies below 0.21214. And with the
    upLeft and downRight flags both set, the signs are upLeft's, not
    downRight's. *)
Lemma diagonal_is_not_speed_over_sqrt2 :
  d_upLeft (derive (Scenario.heading "upLeft")) = true /\
  velocity (host := Scenario.host) (Scenario.heading "upLeft") =
  (- 0.3 / 1.414, - 0.3 / 1.414, true)%float /\
  (abs (- 0.3 / 1.414) =? 0.3 / sqrt 2)%float = false /\
  (0.21216 <? abs (- 0.3 / 1.414))%float = true /\
  (0.3 / sqrt 2 <? 0.21214)%float = true /\
  d_downRight (derive (put "downRight" true (Scenario.heading "upLeft"))) = true /\
  velocity (host := Scenario.host)
    (put "downRight" true (Scenario.heading "upLeft")) =
  (- 0.3 / 1.414, - 0.3 / 1.414, true)%float.
Proof. repeat split. Qed.

(** C4 heading upLeft: both components are the negated speed over 1.414. *)
Lemma diagonal_velocity_witness :
  velocity (host := Scenario.host) (Scenario.heading "upLeft") =
  (- 0.3 / 1.414, - 0.3 / 1.414, true)%float.
Proof.
  exact (proj1 (diagonal_velocity (host := Scenario.host)
                  (Scenario.heading "upLeft") eq_refl eq_refl) eq_refl).
Defined.

(** The constructor builds [Scenario.fresh] from the empty definition. *)
Lemma component_fresh :
  component Scenario.entity (JS.VObj []) = JS.Normal Scenario.fresh.
Proof. reflexivity. Qed.

(** C5 on [Scenario.entity], which starts at (100, 50): headed up at the
    default speed, the tick of 10 moves it to (100, 47). *)
Lemma single_cardinal_velocity_witness :
  velocity (host := Scenario.host) (Scenario.heading "up") =
  (0, - 0.3, true)%float /\
  Entity.y (owner (run (host := Scenario.host)
                     [("go-up", JS.VUndefined);
                      ("handle-logic", Scenario.tick 10)] Scenario.fresh)) =
  47%float.
Proof.
  destruct (single_cardinal_velocity (host := Scenario.host)) as [HV HS].
  split.
  - exact (proj1 (proj2 (proj2 (HV (Scenario.heading "up")))) eq_refl).
  - exact (proj1 (HS Scenario.entity (JS.VObj []) Scenario.fresh
                    component_fresh eq_refl)).
Defined.

(** C6 heading downLeft: the snapshot's [up] is set although the [up]
    flag is not. *)
Lemma broadcast_carries_derived_witness :
  up (Scenario.heading "downLeft") = false /\
  State.up (state (fst (handle_logic (host := Scenario.host) (Scenario.tick 16)
                          (Scenario.heading "downLeft")))) = true.
Proof.
  split; [reflexivity |].
  exact (proj1 (broadcast_carries_derived (host := Scenario.host)
                  (Scenario.tick 16) (JS.VNum 16)
                  (Scenario.heading "downLeft") eq_refl)).
Defined.

(** C7 on the newly built component: its first tick triggers nothing;
    after [go-up] the next tick triggers [logical-state], the snapshot
    being another than the first tick's. *)
Lemma logical_state_iff_changed_witness :
  Entity.triggered
    (owner (fst (handle_logic (host := Scenario.host) (Scenario.tick 16)
                   Scenario.fresh))) = [] /\
  Entity.triggered
    (owner (fst (handle_logic (host := Scenario.host) (Scenario.tick 16)
                   (run (host := Scenario.host) [("go-up", JS.VUndefined)]
                      (fst (handle_logic (host := Scenario.host)
                              (Scenario.tick 16) Scenario.fresh)))))) =
  [("logical-state", State.Build true false false true false)].
Proof.
  split.
  - exact (proj1 (proj2 (proj2 (logical_state_iff_changed (host := Scenario.host)))
                    Scenario.entity (JS.VObj []) Scenario.fresh component_fresh)).
  - refine (proj2 (proj1 (proj2 (logical_state_iff_changed (host := Scenario.host)))
                     (Scenario.tick 16) (JS.VNum 16) (Scenario.tick 16) (JS.VNum 16)
                     [("go-up", JS.VUndefined)] Scenario.fresh
                     eq_refl eq_refl _) _).
    + constructor; [discriminate | constructor].
    + vm_compute. discriminate.
Defined.

(** C8 heading right for a tick of 10: [x] goes from 100 to 103. *)
Lemma tick_adds_and_keeps_flags_witness :
  Entity.x (owner (fst (handle_logic (host := Scenario.host) (Scenario.tick 10)
                          (Scenario.heading "right")))) = 103%float.
Proof.
  exact (proj1 (tick_adds_and_keeps_flags (host := Scenario.host)
                  (Scenario.tick 10) (JS.VNum 10)
                  (Scenario.heading "right") eq_refl)).
Defined.

(** C10 for a definition whose [speed] is 0. *)
Lemma falsy_speed_defaults_witness :
  exists this,
    component Scenario.entity (JS.VObj [("speed", JS.VNum 0%float)]) =
    JS.Normal this /\
    speed this = JS.VNum 0.3%float.
Proof.
  destruct (proj1 falsy_speed_defaults Scenario.entity
              (JS.VObj [("speed", JS.VNum 0%float)]) (JS.VNum 0%float) eq_refl)
    as (this & HC & _ & HF).
  exists this. split; [exact HC | exact (HF eq_refl)].
Defined.

(** The table's row for [up] is not what the tick stores: with the [down]
    and [left] flags alone, downLeft is active and the table's [up] is
    set, but the snapshot's [up] is clear. *)
Lemma table_up_is_not_stored :
  d_downLeft (derive (put "left" true (Scenario.heading "down"))) = true /\
  table_up (put "left" true (Scenario.heading "down")) = true /\
  State.up (state (fst (handle_logic (host := Scenario.host) (Scenario.tick 16)
                          (put "left" true (Scenario.heading "down"))))) = false.
Proof. repeat split. Qed.

(** The derivation of [up] reads the diagonal flags themselves: with only
    [down] and [left] set, downLeft is active but the snapshot's [up] stays
    clear, while its [down] and [left] are set. *)
Remark up_reads_the_downLeft_flag :
  let this := put "left" true (Scenario.heading "down") in
  d_downLeft (derive this) = true /\
  snapshot (host := Scenario.host) this =
  State.Build true true false false true.
Proof. split; reflexivity. Qed.

(** ** Further properties of the handlers *)

Section Handlers.

Context {host : JS.Host}.

(** *** Flags read and written by name *)

Lemma get_put_same (direction : string) (b : bool) (this : instance) :
  In direction flag_names -> get (put direction b this) direction = b.
Proof.
  intros HIn. cbn in HIn.
  repeat (destruct HIn as [<- | HIn]; [reflexivity |]).
  contradiction.
Qed.

Lemma get_put_other (direction other : string) (b : bool) (this : instance) :
  other <> direction -> get (put direction b this) other = get this other.
Proof.
  intros HN. unfold get, put.
  cbn [left right up down upLeft upRight downLeft downRight].
  repeat match goal with
         | |- context [other =? ?name] =>
             destruct (String.eqb_spec other name) as [-> | ?];
             [ match goal with
               | |- context [direction =? ?n] =>
                   destruct (String.eqb_spec direction n) as [-> | ?];
                   [congruence | reflexivity]
               end
             | ]
         end.
  reflexivity.
Qed.

Lemma put_put_other (d1 d2 : string) (b1 b2 : bool) (this : instance) :
  d1 <> d2 -> put d1 b1 (put d2 b2 this) = put d2 b2 (put d1 b1 this).
Proof.
  intros HN. unfold put.
  cbn [owner speed state moving left right up down
       upLeft upRight downLeft downRight].
  f_equal;
    match goal with
    | |- context [d1 =? ?name] =>
        destruct (String.eqb_spec d1 name) as [-> | ?];
        destruct (String.eqb_spec d2 name) as [-> | ?];
        congruence
    end.
Qed.

(** A directional handler writes one flag, with a value that depends on
    the payload alone, and completes normally. *)
Lemma processDirection_put (direction : string) (payload : JS.value) :
  exists b : bool,
    forall this : instance,
      processDirection direction payload this = (put direction b this, JS.Normal tt).
Proof.
  unfold processDirection.
  destruct payload as [| | b | n | s | props]; cbn [JS.ToBoolean JS.Get].
  - exists true. reflexivity.
  - exists true. reflexivity.
  - destruct b; [exists false | exists true]; reflexivity.
  - destruct (negb (is_zero n || is_nan n)); [exists false | exists true];
      reflexivity.
  - destruct (negb (s =? "")); [exists false | exists true]; reflexivity.
  - destruct (JS.ToBoolean _); [exists true | exists false]; reflexivity.
Qed.

Lemma directions_flag_names (messageId direction : string) :
  In (messageId, direction) directions -> In direction flag_names.
Proof.
  intros HIn. cbn in HIn.
  repeat (destruct HIn as [HIn | HIn]; [injection HIn as <- <-; cbn; tauto |]).
  contradiction.
Qed.

Lemma proto_directions (messageId direction : string) :
  In (messageId, direction) directions ->
  proto messageId = Some (processDirection direction).
Proof.
  intros HIn. cbn in HIn.
  repeat (destruct HIn as [HIn | HIn]; [injection HIn as <- <-; reflexivity |]).
  contradiction.
Qed.

(** X1. A directional message whose payload has a [pressed] property sets
    its flag to the truthiness of [pressed] and completes normally; the
    other seven flags, the owner, the speed, the snapshot and [moving] are
    as before. *)
Theorem pressed_sets_only_its_flag (messageId direction : string)
    (props : JS.object) (pressed : JS.value) (this : instance) :
  In (messageId, direction) directions ->
  JS.lookup "pressed" props = Some pressed ->
  exists h : handler,
    proto messageId = Some h /\
    snd (h (JS.VObj props) this) = JS.Normal tt /\
    let this' := fst (h (JS.VObj props) this) in
    get this' direction = JS.ToBoolean pressed /\
    (forall other, other <> direction -> get this' other = get this other) /\
    owner this' = owner this /\ speed this' = speed this /\
    state this' = state this /\ moving this' = moving this.
Proof.
  intros HIn HL. exists (processDirection direction).
  split; [apply proto_directions, HIn |].
  assert (E : processDirection direction (JS.VObj props) this =
              (put direction (JS.ToBoolean pressed) this, JS.Normal tt)).
  { unfold processDirection. cbn [JS.ToBoolean JS.Get]. rewrite HL.
    destruct (JS.ToBoolean pressed); reflexivity. }
  rewrite E. cbn [fst snd]. split; [reflexivity |].
  split; [apply get_put_same; eapply directions_flag_names; eassumption |].
  split; [intros other HN; apply get_put_other, HN |].
  repeat split.
Qed.

(** X2. A payload that is not an object acts by its truthiness alone: a
    directional handler sets its flag when the payload is falsy
    ([undefined], [null], [false], [0], [NaN], the empty string) and clears
    it when the payload is truthy; [stop] clears the eight flags when the
    payload is falsy and does nothing when it is truthy. *)
Theorem primitive_payload_acts_inverted (payload : JS.value) (this : instance) :
  (forall props, payload <> JS.VObj props) ->
  (forall messageId direction,
      In (messageId, direction) directions ->
      get (fst (processDirection direction payload this)) direction =
      negb (JS.ToBoolean payload)) /\
  stop payload this =
  (if JS.ToBoolean payload then this else clear this, JS.Normal tt).
Proof.
  intros HP.
  assert (E : forall direction,
             processDirection direction payload this =
             (put direction (negb (JS.ToBoolean payload)) this, JS.Normal tt)).
  { intros direction. unfold processDirection.
    destruct payload as [| | b | n | s | props];
      cbn [JS.ToBoolean JS.Get]; try reflexivity.
    - destruct b; reflexivity.
    - destruct (negb (is_zero n || is_nan n)); reflexivity.
    - destruct (negb (s =? "")); reflexivity.
    - exfalso. apply (HP props). reflexivity. }
  split.
  - intros messageId direction HIn. rewrite E. cbn [fst].
    apply get_put_same. eapply directions_flag_names; eassumption.
  - unfold stop.
    destruct payload as [| | b | n | s | props];
      cbn [JS.ToBoolean JS.Get negb]; try reflexivity.
    + destruct b; reflexivity.
    + destruct (negb (is_zero n || is_nan n)); reflexivity.
    + destruct (negb (s =? "")); reflexivity.
    + exfalso. apply (HP props). reflexivity.
Qed.

(** *** Delivery *)

Lemma stop_normal (payload : JS.value) (this : instance) :
  snd (stop payload this) = JS.Normal tt.
Proof.
  unfold stop.
  destruct payload as [| | b | n | s | props];
    cbn [JS.ToBoolean JS.Get negb]; try reflexivity.
  - destruct b; reflexivity.
  - destruct (negb (is_zero n || is_nan n)); reflexivity.
  - destruct (negb (s =? "")); reflexivity.
  - destruct (JS.ToBoolean _); reflexivity.
Qed.

Lemma listened_has_method (messageId : string) :
  In messageId listeners -> exists h : handler, proto messageId = Some h.
Proof.
  intros HIn. cbn in HIn.
  repeat (destruct HIn as [<- | HIn]; [eexists; reflexivity |]).
  contradiction.
Qed.

(** X3. Every message id the constructor listens for has its method on
    the prototype, so a bound listener never finds [self[messageId]]
    missing: a message with a listened id is handled by that method, which
    is [handle-logic]'s, the directional handler of the id's flag, or
    [stop]'s. *)
Theorem listened_ids_have_methods (messageId : string) :
  In messageId listeners ->
  exists h : handler,
    proto messageId = Some h /\
    (forall value this, deliver messageId value this = h value this) /\
    ((messageId = "handle-logic" /\ h = handle_logic) \/
     (exists direction,
         In (messageId, direction) directions /\ h = processDirection direction) \/
     (messageId = "stop" /\ h = stop)).
Proof.
  intros HIn. cbn in HIn.
  repeat (destruct HIn as [<- | HIn];
          [ eexists; split; [reflexivity |];
            split; [intros value this; reflexivity |];
            first [ left; split; reflexivity
                  | right; right; split; reflexivity
                  | right; left; eexists; split; [cbn; tauto | reflexivity] ]
          | ]).
  contradiction.
Qed.

(** X4. Only a tick can throw: a message with any other id, with any
    payload at all, completes normally; and a message the constructor does
    not listen for leaves the instance as it is. *)
Theorem only_ticks_throw (messageId : string) (value : JS.value)
    (this : instance) :
  (messageId <> "handle-logic" ->
   snd (deliver messageId value this) = JS.Normal tt) /\
  (~ In messageId listeners ->
   deliver messageId value this = (this, JS.Normal tt)).
Proof.
  split.
  - intros HN. unfold deliver.
    destruct (existsb (String.eqb messageId) listeners) eqn:HE;
      [| reflexivity].
    unfold proto.
    destruct (String.eqb_spec messageId "handle-logic") as [-> | _];
      [congruence |].
    destruct (find _ directions) as [[m direction] |] eqn:HF.
    + destruct (processDirection_put direction value) as [b E].
      rewrite E. reflexivity.
    + destruct (String.eqb_spec messageId "stop") as [-> | HS].
      * apply stop_normal.
      * exfalso. apply existsb_exists in HE. destruct HE as (m & HIn & HM).
        apply String.eqb_eq in HM. subst m.
        apply listened_has_method in HIn. destruct HIn as [h HP].
        unfold proto in HP.
        destruct (String.eqb_spec messageId "handle-logic"); [congruence |].
        rewrite HF in HP.
        destruct (String.eqb_spec messageId "stop"); [congruence | discriminate].
  - intros HN. unfold deliver.
    destruct (existsb (String.eqb messageId) listeners) eqn:HE;
      [| reflexivity].
    exfalso. apply HN. apply existsb_exists in HE.
    destruct HE as (m & HIn & HM). apply String.eqb_eq in HM. now subst m.
Qed.

(** *** Ticks that go wrong *)

(** X5. A tick with no payload ([undefined] or [null]) throws a
    TypeError after [this.moving] has been assigned: the position, the
    snapshot, the flags and the notifications are as before the tick. *)
Theorem tick_without_payload_throws (resp : JS.value) (this : instance) :
  resp = JS.VUndefined \/ resp = JS.VNull ->
  snd (handle_logic resp this) = JS.TypeError /\
  let this' := fst (handle_logic resp this) in
  moving this' = snd (velocity this) /\
  owner this' = owner this /\ state this' = state this /\
  flags this' = flags this /\ speed this' = speed this.
Proof.
  intros [-> | ->]; unfold handle_logic; cbn [JS.Get];
    destruct (velocity this) as [[vX vY] mv]; repeat split.
Qed.

Lemma add_mul_nan (a v n : float) :
  is_nan n = true -> is_nan (a + v * n) = true.
Proof.
  intros H. apply is_nan_spec in H. apply is_nan_spec.
  rewrite add_spec, mul_spec, H.
  assert (E : SF64mul (Prim2SF v) S754_nan = S754_nan)
    by (destruct (Prim2SF v); reflexivity).
  rewrite E. destruct (Prim2SF a); reflexivity.
Qed.

(** X6. A tick whose [deltaT] is missing, or is not a number, turns both
    coordinates into [NaN], whatever the flags are: also at rest, where the
    velocity is zero. *)
Theorem tick_without_deltaT_loses_position (resp deltaT : JS.value)
    (this : instance) :
  JS.Get resp "deltaT" = JS.Normal deltaT ->
  is_nan (JS.ToNumber deltaT) = true ->
  let o' := owner (fst (handle_logic resp this)) in
  is_nan (Entity.x o') = true /\ is_nan (Entity.y o') = true.
Proof.
  intros HG HN o'. subst o'.
  rewrite (handle_logic_eq _ _ _ HG). cbn [fst owner Entity.x Entity.y].
  split; apply add_mul_nan, HN.
Qed.

(** *** The snapshot between ticks *)

(** The velocity and the new snapshot depend on the flags and the speed
    only, which a tick keeps. *)
Lemma snapshot_after_tick (resp : JS.value) (this : instance) :
  snapshot (fst (handle_logic resp this)) = snapshot this.
Proof.
  destruct (JS.Get resp "deltaT") as [deltaT |] eqn:HG.
  - rewrite (handle_logic_eq _ _ _ HG). reflexivity.
  - unfold handle_logic. rewrite HG.
    destruct (velocity this) as [[vX vY] mv]. reflexivity.
Qed.

(** X7. After a tick that completes, the stored snapshot is the one the
    flags derive, and it stays so until a flag changes: however many ticks
    follow, with whatever payloads, none of them triggers
    [logical-state]. *)
Theorem ticks_after_first_are_silent (resp deltaT : JS.value)
    (this : instance) (later : list JS.value) :
  JS.Get resp "deltaT" = JS.Normal deltaT ->
  let this1 := fst (handle_logic resp this) in
  state this1 = snapshot this1 /\
  Entity.triggered
    (owner (run (map (fun r => ("handle-logic", r)) later) this1)) =
  Entity.triggered (owner this1).
Proof.
  intros HG this1.
  assert (H1 : state this1 = snapshot this1).
  { subst this1. rewrite snapshot_after_tick.
    rewrite (handle_logic_eq _ _ _ HG). reflexivity. }
  split; [exact H1 |].
  clearbody this1. revert this1 H1.
  induction later as [| r later IH]; intros this1 H1; [reflexivity |].
  cbn [map run].
  change (deliver "handle-logic" r this1) with (handle_logic r this1).
  assert (Keep : state (fst (handle_logic r this1)) =
                 snapshot (fst (handle_logic r this1)) /\
                 Entity.triggered (owner (fst (handle_logic r this1))) =
                 Entity.triggered (owner this1)).
  { rewrite snapshot_after_tick.
    destruct (JS.Get r "deltaT") as [d |] eqn:HR.
    - rewrite (handle_logic_eq _ _ _ HR).
      cbn [fst owner state Entity.triggered].
      split; [reflexivity |].
      rewrite (proj2 (State_eqb_eq _ _) H1). apply app_nil_r.
    - unfold handle_logic. rewrite HR.
      destruct (velocity this1) as [[vX vY] mv] eqn:EV.
      cbn [fst set_moving owner state]. split; [| reflexivity].
      exact H1. }
  destruct Keep as [K1 K2]. rewrite (IH _ K1). exact K2.
Qed.

(** *** The shape of the chain of conditionals *)

(** X8. [this.moving] is assigned [false] exactly when an opposing pair is
    set or none of the eight flags is; and whenever it is [false] both
    velocity components are zero. *)
Theorem moving_iff_unopposed_flag (this : instance) :
  snd (velocity this) =
  negb ((up this && down this) || (left this && right this))
  && existsb (fun flag => flag) (flags this) /\
  (snd (velocity this) = false -> fst (velocity this) = (0, 0)%float).
Proof.
  destruct this as [o sp st mv l r u d ul ur dl dr].
  unfold velocity, derive, flags.
  cbn [left right up down upLeft upRight downLeft downRight speed
       d_up d_upLeft d_left d_downLeft d_down d_downRight d_right d_upRight].
  destruct l, r, u, d, ul, ur, dl, dr; cbn; split;
    try reflexivity; intros H; try reflexivity; discriminate H.
Qed.

(** X9. The four cardinal branches are reached only with a single flag
    set: when no opposing pair is set and no diagonal is active, at most
    one of the eight flags is set, so the order of those branches never
    decides. *)
Theorem cardinal_branch_has_one_flag (this : instance) :
  up this && down this = false ->
  left this && right this = false ->
  d_upLeft (derive this) || d_upRight (derive this)
  || d_downLeft (derive this) || d_downRight (derive this) = false ->
  count_occ bool_dec (flags this) true <= 1.
Proof.
  destruct this as [o sp st mv l r u d ul ur dl dr].
  unfold derive, flags.
  cbn [left right up down upLeft upRight downLeft downRight
       d_upLeft d_downLeft d_downRight d_upRight].
  destruct l, r, u, d, ul, ur, dl, dr; cbn; intros H1 H2 H3;
    try discriminate; auto.
Qed.

(** *** Messages in sequence *)

(** What [deliver] does with a directional message. *)
Lemma deliver_directions (messageId direction : string) (value : JS.value)
    (this : instance) :
  In (messageId, direction) directions ->
  deliver messageId value this = processDirection direction value this.
Proof.
  intros HIn. cbn in HIn.
  repeat (destruct HIn as [HIn | HIn]; [injection HIn as <- <-; reflexivity |]).
  contradiction.
Qed.

(** X10. Up and left in sequence make up-left: from an instance with no
    flag set, [go-up] then [go-left] (either alias, no payloads, either
    order) leave the velocity at minus the speed over 1.414 along both
    axes, with [this.moving] true. *)
Theorem up_then_left_is_upLeft (this : instance) (goUp goLeft : string) :
  flags this = repeat false 8 ->
  In (goUp, "up") directions ->
  In (goLeft, "left") directions ->
  let s := JS.ToNumber (speed this) in
  velocity (run [(goUp, JS.VUndefined); (goLeft, JS.VUndefined)] this) =
  (- s / 1.414, - s / 1.414, true)%float /\
  velocity (run [(goLeft, JS.VUndefined); (goUp, JS.VUndefined)] this) =
  (- s / 1.414, - s / 1.414, true)%float.
Proof.
  intros HF HU HL s. subst s.
  cbn [run]. rewrite !(deliver_directions _ _ _ _ HU).
  rewrite !(deliver_directions _ _ _ _ HL).
  destruct this as [o sp st mv l r u d ul ur dl dr].
  unfold flags in HF.
  cbn [left right up down upLeft upRight downLeft downRight] in HF.
  injection HF as -> -> -> -> -> -> -> ->.
  split; reflexivity.
Qed.

(** X11. Press and release: when a flag is clear, its message with
    [pressed] true and then with [pressed] false gives back the instance
    as it was. *)
Theorem press_then_release_restores (messageId direction : string)
    (down_props up_props : JS.object) (this : instance) :
  In (messageId, direction) directions ->
  get this direction = false ->
  JS.lookup "pressed" down_props = Some (JS.VBool true) ->
  JS.lookup "pressed" up_props = Some (JS.VBool false) ->
  run [(messageId, JS.VObj down_props); (messageId, JS.VObj up_props)] this
  = this.
Proof.
  intros HIn HG HD HU. cbn [run].
  rewrite !(deliver_directions _ _ _ _ HIn).
  unfold processDirection. cbn [JS.ToBoolean JS.Get]. rewrite HD, HU.
  cbn [JS.ToBoolean fst].
  destruct this as [o sp st mv l r u d ul ur dl dr].
  cbn in HIn.
  repeat (destruct HIn as [HIn | HIn];
          [injection HIn as <- <-; cbn in HG; subst; reflexivity |]).
  contradiction.
Qed.

(** X12. Messages for two different flags commute: delivered in either
    order, with whatever payloads, they leave the same instance. *)
Theorem directional_messages_commute (m1 d1 m2 d2 : string)
    (p1 p2 : JS.value) (this : instance) :
  In (m1, d1) directions ->
  In (m2, d2) directions ->
  d1 <> d2 ->
  run [(m1, p1); (m2, p2)] this = run [(m2, p2); (m1, p1)] this.
Proof.
  intros H1 H2 HN. cbn [run].
  rewrite !(deliver_directions _ _ _ _ H1), !(deliver_directions _ _ _ _ H2).
  destruct (processDirection_put d1 p1) as [b1 E1].
  destruct (processDirection_put d2 p2) as [b2 E2].
  repeat first [rewrite E1 | rewrite E2 | progress cbn [fst]].
  apply put_put_other. congruence.
Qed.

(** X13. [stop] and then a tick bring the component to rest: after [stop]
    with no payload, a tick of finite [deltaT] assigns [this.moving] false,
    leaves the position the same numbers, stores the snapshot with all five
    fields false, and triggers [logical-state] exactly when the stored
    snapshot was not that one already. *)
Theorem stop_then_tick_rests (resp deltaT : JS.value) (this : instance) :
  JS.Get resp "deltaT" = JS.Normal deltaT ->
  is_finite (JS.ToNumber deltaT) = true ->
  let rest := State.Build false false false false false in
  let this' := run [("stop", JS.VUndefined); ("handle-logic", resp)] this in
  moving this' = false /\
  state this' = rest /\
  flags this' = repeat false 8 /\
  JS.SameValueZero (Entity.x (owner this')) (Entity.x (owner this)) = true /\
  JS.SameValueZero (Entity.y (owner this')) (Entity.y (owner this)) = true /\
  Entity.triggered (owner this') =
  (Entity.triggered (owner this) ++
   (if State.eqb (state this) rest then [] else [("logical-state", rest)]))%list.
Proof.
  intros HG HF rest this'. subst rest this'.
  cbn [run].
  change (deliver "stop" JS.VUndefined this) with (stop JS.VUndefined this).
  change (fst (stop JS.VUndefined this)) with (clear this).
  change (deliver "handle-logic" resp (clear this))
    with (handle_logic resp (clear this)).
  rewrite (handle_logic_eq _ _ _ HG).
  cbn [fst owner state moving Entity.x Entity.y Entity.triggered].
  repeat split; apply add_zero_mul_same, HF.
Qed.

(** X14. The snapshot's [up] follows the downLeft flag: heading down-left
    by that flag (no opposing pair, no upper diagonal active) the velocity
    points down and left while the snapshot stored by the tick has [up],
    [down] and [left] all true. *)
Theorem downLeft_flag_reports_up (resp deltaT : JS.value) (this : instance) :
  JS.Get resp "deltaT" = JS.Normal deltaT ->
  downLeft this = true ->
  up this && down this = false ->
  left this && right this = false ->
  d_upLeft (derive this) = false ->
  d_upRight (derive this) = false ->
  let s := JS.ToNumber (speed this) in
  let this' := fst (handle_logic resp this) in
  velocity this = (- s / 1.414, s / 1.414, true)%float /\
  State.up (state this') = true /\
  State.down (state this') = true /\
  State.left (state this') = true.
Proof.
  intros HG HD HV HH HUL HUR s this'. subst s this'.
  rewrite (handle_logic_eq _ _ _ HG). cbn [fst state].
  unfold snapshot, velocity. cbv zeta. rewrite HV, HH, HUL, HUR.
  unfold derive.
  cbn [d_up d_down d_left d_downLeft State.up State.down State.left].
  rewrite HD. cbn [orb]. rewrite !orb_true_r. repeat split.
Qed.

(** X18. Ticks keep the heading: whatever ticks are delivered, with
    whatever payloads, the eight flags, the speed and therefore the
    velocity are afterwards what they were; only a directional message or
    [stop] changes them. *)
Theorem ticks_keep_heading (payloads : list JS.value) (this : instance) :
  let this' := run (map (fun r => ("handle-logic", r)) payloads) this in
  flags this' = flags this /\
  speed this' = speed this /\
  velocity this' = velocity this.
Proof.
  revert this. induction payloads as [| r rest IH]; intros this;
    [repeat split |].
  cbn [map run].
  change (deliver "handle-logic" r this) with (handle_logic r this).
  specialize (IH (fst (handle_logic r this))). cbn zeta in IH.
  destruct IH as (IF & IS & IV).
  assert (Step : flags (fst (handle_logic r this)) = flags this /\
                 speed (fst (handle_logic r this)) = speed this /\
                 velocity (fst (handle_logic r this)) = velocity this).
  { destruct (JS.Get r "deltaT") as [d |] eqn:HR.
    - rewrite (handle_logic_eq _ _ _ HR). repeat split.
    - unfold handle_logic. rewrite HR.
      destruct (velocity this) as [[vX vY] mv] eqn:EV.
      cbn [fst]. repeat split.
      destruct this; exact EV. }
  destruct Step as (SF & SS & SV).
  cbn zeta. rewrite IF, IS, IV. repeat split; assumption.
Qed.

(** X19. [stop] with a payload object decides by the truthiness of
    [pressed]: an object without [pressed] stops nothing, and so does any
    falsy [pressed]; any truthy [pressed] clears the eight flags. *)
Theorem stop_with_object_follows_pressed (props : JS.object) (this : instance) :
  (JS.lookup "pressed" props = None ->
   stop (JS.VObj props) this = (this, JS.Normal tt)) /\
  (forall pressed,
      JS.lookup "pressed" props = Some pressed ->
      stop (JS.VObj props) this =
      (if JS.ToBoolean pressed then clear this else this, JS.Normal tt)).
Proof.
  unfold stop. cbn [JS.ToBoolean JS.Get negb]. split.
  - intros ->. reflexivity.
  - intros pressed ->. destruct (JS.ToBoolean pressed); reflexivity.
Qed.

End Handlers.

(** ** Binding and unbinding listeners *)

Lemma assign_keys (P k : string) (f : Binding.func)
    (props : list (string * Binding.func)) :
  In k (map fst (Binding.assign P f props)) <-> k = P \/ In k (map fst props).
Proof.
  induction props as [| [k0 v0] rest IH]; cbn.
  - intuition congruence.
  - destruct (String.eqb_spec k0 P) as [-> | HN]; cbn.
    + intuition congruence.
    + rewrite IH. intuition congruence.
Qed.

Lemma assign_NoDup (P : string) (f : Binding.func)
    (props : list (string * Binding.func)) :
  NoDup (map fst props) -> NoDup (map fst (Binding.assign P f props)).
Proof.
  induction props as [| [k0 v0] rest IH]; cbn; intros HND.
  - constructor; [intros [] | constructor].
  - inversion HND as [| ? ? HNI HND']; subst.
    destruct (String.eqb_spec k0 P) as [-> | HN]; cbn.
    + constructor; assumption.
    + constructor; [| apply IH, HND'].
      rewrite assign_keys. intuition congruence.
Qed.

Lemma assign_value (P : string) (f g : Binding.func)
    (props : list (string * Binding.func)) :
  NoDup (map fst props) -> In (P, g) (Binding.assign P f props) -> g = f.
Proof.
  induction props as [| [k0 v0] rest IH]; cbn; intros HND HIn.
  - destruct HIn as [HIn | []]. congruence.
  - inversion HND as [| ? ? HNI HND']; subst.
    destruct (String.eqb_spec k0 P) as [-> | HN]; cbn in HIn.
    + destruct HIn as [HIn | HIn]; [congruence |].
      exfalso. apply HNI. apply (in_map fst) in HIn. exact HIn.
    + destruct HIn as [HIn | HIn]; [congruence |]. apply IH; assumption.
Qed.

Lemma assign_fresh (P : string) (f : Binding.func)
    (props : list (string * Binding.func)) :
  ~ In P (map fst props) -> Binding.assign P f props = (props ++ [(P, f)])%list.
Proof.
  induction props as [| [k0 v0] rest IH]; cbn; intros HNI; [reflexivity |].
  destruct (String.eqb_spec k0 P) as [-> | HN]; [tauto |].
  rewrite IH; [reflexivity | tauto].
Qed.

Lemma bound_addListener (messageId : string) (b : Binding.t) :
  Binding.bound (Binding.addListener messageId None b) =
  (Binding.bound b ++ [(messageId, Binding.Forwarder (Binding.closures b) messageId)])%list /\
  Binding.unbound (Binding.addListener messageId None b) = Binding.unbound b.
Proof.
  unfold Binding.bound, Binding.unbound, Binding.addListener.
  cbn [Binding.calls]. rewrite !flat_map_app. cbn. rewrite app_nil_r.
  split; reflexivity.
Qed.

(** What [addListeners] leaves: one bind per id, nothing unbound, and one
    property per distinct id. *)
Lemma addListeners_spec (messageIds : list string) (b : Binding.t) :
  let b' := Binding.addListeners messageIds b in
  List.length (Binding.bound b') =
  List.length (Binding.bound b) + List.length messageIds /\
  Binding.unbound b' = Binding.unbound b /\
  (NoDup (map fst (Binding.listeners b)) ->
   NoDup (map fst (Binding.listeners b'))) /\
  (forall k, In k (map fst (Binding.listeners b')) <->
             In k messageIds \/ In k (map fst (Binding.listeners b))).
Proof.
  revert b. induction messageIds as [| m rest IH]; intros b; cbn zeta.
  - cbn. repeat split; try tauto. symmetry. apply Nat.add_0_r.
  - cbn [Binding.addListeners fold_left].
    specialize (IH (Binding.addListener m None b)). cbn zeta in IH.
    unfold Binding.addListeners in IH.
    destruct IH as (IH1 & IH2 & IH3 & IH4).
    destruct (bound_addListener m b) as [EB EU].
    repeat split.
    + rewrite IH1, EB, length_app. cbn. rewrite <- Nat.add_assoc. reflexivity.
    + rewrite IH2. exact EU.
    + intros HND. apply IH3. cbn [Binding.addListener Binding.listeners].
      apply assign_NoDup, HND.
    + intros HIn. apply IH4 in HIn.
      cbn [Binding.addListener Binding.listeners] in HIn.
      rewrite assign_keys in HIn. cbn. intuition.
    + intros HIn. apply IH4.
      cbn [Binding.addListener Binding.listeners].
      rewrite assign_keys. cbn in HIn. intuition.
Qed.

(** With distinct ids that are not yet properties, the properties added
    are the pairs bound, in the same order. *)
Lemma addListeners_distinct (messageIds : list string) (b : Binding.t) :
  NoDup messageIds ->
  (forall k, In k messageIds -> ~ In k (map fst (Binding.listeners b))) ->
  exists added,
    Binding.bound (Binding.addListeners messageIds b) =
    (Binding.bound b ++ added)%list /\
    Binding.listeners (Binding.addListeners messageIds b) =
    (Binding.listeners b ++ added)%list.
Proof.
  revert b. induction messageIds as [| m rest IH]; intros b HND HF.
  - exists []. cbn. rewrite !app_nil_r. split; reflexivity.
  - inversion HND as [| ? ? HNI HND']; subst.
    cbn [Binding.addListeners fold_left].
    destruct (IH (Binding.addListener m None b) HND') as (added & E1 & E2).
    { intros k Hk. cbn [Binding.addListener Binding.listeners].
      rewrite assign_keys. intros [-> | HIn]; [contradiction |].
      apply (HF k); [right; exact Hk | exact HIn]. }
    unfold Binding.addListeners in E1, E2.
    destruct (bound_addListener m b) as [EB _].
    exists ((m, Binding.Forwarder (Binding.closures b) m) :: added).
    split.
    + rewrite E1, EB, <- app_assoc. reflexivity.
    + rewrite E2. cbn [Binding.addListener Binding.listeners].
      rewrite assign_fresh by (apply HF; left; reflexivity).
      rewrite <- app_assoc. reflexivity.
Qed.

Lemma removeListeners_calls (entries : list (string * Binding.func))
    (b : Binding.t) :
  Binding.calls (Binding.removeListeners entries b) =
  (Binding.calls b ++
   map (fun entry => Binding.Unbind (fst entry) (snd entry)) entries)%list /\
  Binding.listeners (Binding.removeListeners entries b) = Binding.listeners b.
Proof.
  revert b. induction entries as [| e rest IH]; intros b.
  - cbn. rewrite app_nil_r. split; reflexivity.
  - cbn [Binding.removeListeners fold_left map].
    destruct (IH (Binding.removeListener (fst e) (snd e) b)) as [E1 E2].
    unfold Binding.removeListeners in E1, E2. rewrite E1, E2.
    cbn [Binding.removeListener Binding.calls Binding.listeners].
    rewrite <- app_assoc. split; reflexivity.
Qed.

Lemma unbinds_bound_nothing (entries : list (string * Binding.func)) :
  flat_map (fun c => match c with
                     | Binding.Bind m f => [(m, f)]
                     | Binding.Unbind _ _ => []
                     end)
    (map (fun entry => Binding.Unbind (fst entry) (snd entry)) entries) = [].
Proof. induction entries as [| e rest IH]; [reflexivity | exact IH]. Qed.

Lemma unbinds_unbound_all (entries : list (string * Binding.func)) :
  flat_map (fun c => match c with
                     | Binding.Unbind m f => [(m, f)]
                     | Binding.Bind _ _ => []
                     end)
    (map (fun entry => Binding.Unbind (fst entry) (snd entry)) entries) = entries.
Proof.
  induction entries as [| [k v] rest IH]; [reflexivity |].
  cbn. f_equal. exact IH.
Qed.

(** What [destroy] leaves: the same binds, one unbind per property of
    [this.listeners], and [this.listeners] as it was. *)
Lemma destroy_spec (b : Binding.t) :
  Binding.bound (Binding.destroy b) = Binding.bound b /\
  Binding.unbound (Binding.destroy b) =
  (Binding.unbound b ++ Binding.listeners b)%list /\
  Binding.listeners (Binding.destroy b) = Binding.listeners b.
Proof.
  unfold Binding.destroy.
  destruct (removeListeners_calls (Binding.listeners b) b) as [EC EL].
  unfold Binding.bound, Binding.unbound. rewrite EC, !flat_map_app.
  rewrite unbinds_bound_nothing, unbinds_unbound_all, app_nil_r.
  repeat split. exact EL.
Qed.

(** X15. The constructor binds its eighteen listeners, each a closure
    that forwards to the method of its own message id, before it reads
    [definition.speed]: with [definition] undefined or null it throws a
    TypeError and the owner has been handed the eighteen listeners all the
    same, none of them unbound. *)
Theorem constructor_binds_before_reading_speed (o : Entity.t)
    (definition : JS.value) :
  let b := fst (construct o definition) in
  map fst (Binding.bound b) = listeners /\
  Forall (fun entry => exists n, snd entry = Binding.Forwarder n (fst entry))
    (Binding.bound b) /\
  Binding.unbound b = [] /\
  (definition = JS.VUndefined \/ definition = JS.VNull ->
   snd (construct o definition) = JS.TypeError).
Proof.
  cbn zeta. split; [reflexivity |]. split.
  - cbn. repeat (constructor; [eexists; reflexivity |]). constructor.
  - split; [reflexivity |]. intros [-> | ->]; reflexivity.
Qed.

(** X16. [destroy] unbinds what was bound: after listeners for distinct
    message ids have been added, none of them [length] or [__proto__],
    [destroy] unbinds each bound pair of id and function once. It does not
    empty [this.listeners], so a second [destroy] unbinds every pair once
    more. *)
Theorem destroy_unbinds_what_was_bound (messageIds : list string) :
  NoDup messageIds ->
  Forall (fun messageId => Binding.ordinary messageId = true) messageIds ->
  let b := Binding.addListeners messageIds Binding.empty in
  Permutation (Binding.unbound (Binding.destroy b)) (Binding.bound b) /\
  Binding.listeners (Binding.destroy b) = Binding.listeners b /\
  Permutation (Binding.unbound (Binding.destroy (Binding.destroy b)))
    (Binding.bound b ++ Binding.bound b).
Proof.
  intros HND _ b.
  destruct (addListeners_distinct messageIds Binding.empty HND)
    as (added & EB & EL); [intros k _ [] |].
  fold b in EB, EL. cbn in EB, EL.
  destruct (addListeners_spec messageIds Binding.empty) as (_ & EU & _).
  fold b in EU. cbn in EU.
  destruct (destroy_spec b) as (_ & D2 & D3).
  destruct (destroy_spec (Binding.destroy b)) as (_ & D5 & _).
  split; [| split].
  - rewrite D2, EU, EL, EB. apply Permutation_refl.
  - exact D3.
  - rewrite D5, D3, D2, EU, EL, EB. apply Permutation_refl.
Qed.

(** X17. A listener added twice for one message id is bound twice, with
    two closures, and only the later one is kept in [this.listeners]:
    [destroy] does not unbind the earlier closure. *)
Theorem listener_added_twice_stays_bound (messageIds : list string)
    (messageId : string) :
  let b := Binding.addListeners messageIds Binding.empty in
  let earlier := Binding.Forwarder (Binding.closures b) messageId in
  let b2 :=
    Binding.destroy
      (Binding.addListener messageId None
         (Binding.addListener messageId None b)) in
  In (messageId, earlier) (Binding.bound b2) /\
  ~ In (messageId, earlier) (Binding.unbound b2).
Proof.
  intros b earlier b2. subst b2.
  destruct (addListeners_spec messageIds Binding.empty) as (_ & EU & ND & _).
  fold b in EU, ND. cbn in EU. specialize (ND (NoDup_nil _)).
  set (b1 := Binding.addListener messageId None b).
  destruct (destroy_spec (Binding.addListener messageId None b1))
    as (D1 & D2 & _).
  destruct (bound_addListener messageId b1) as [B2 U2].
  destruct (bound_addListener messageId b) as [B1 U1]. fold b1 in B1, U1.
  split.
  - rewrite D1, B2, B1. apply in_or_app. left. apply in_or_app. right.
    left. reflexivity.
  - rewrite D2, U2, U1, EU. cbn [app].
    cbn [Binding.addListener Binding.listeners]. intros HIn.
    apply assign_value in HIn.
    + subst earlier. cbn [b1 Binding.addListener Binding.closures] in HIn.
      injection HIn as HIn. exact (n_Sn _ HIn).
    + subst b1. cbn [Binding.addListener Binding.listeners].
      apply assign_NoDup, ND.
Qed.

(** ** The further properties at the instances of [Scenario] *)

Lemma listeners_NoDup : NoDup listeners.
Proof.
  unfold listeners.
  repeat (constructor; [cbn; intuition discriminate |]). constructor.
Qed.

(** X1 for [go-east] released on an instance with every flag set. *)
Lemma pressed_sets_only_its_flag_witness :
  exists h : handler,
    proto (host := Scenario.host) "go-east" = Some h /\
    get (fst (h (Scenario.pressed false) Scenario.all_set)) "right" = false /\
    get (fst (h (Scenario.pressed false) Scenario.all_set)) "left" = true.
Proof.
  destruct (pressed_sets_only_its_flag (host := Scenario.host)
              "go-east" "right" [("pressed", JS.VBool false)] (JS.VBool false)
              Scenario.all_set) as (h & HP & _ & HG & HO & _).
  - cbn. tauto.
  - reflexivity.
  - exists h. split; [exact HP |]. split; [exact HG |].
    transitivity (get Scenario.all_set "left");
      [apply HO; discriminate | reflexivity].
Defined.

(** X2 for the payload [true]: [go-up] clears [up], and [stop] does
    nothing. *)
Lemma primitive_payload_acts_inverted_witness :
  get (fst (processDirection "up" (JS.VBool true) Scenario.all_set)) "up" = false /\
  stop (JS.VBool true) Scenario.all_set = (Scenario.all_set, JS.Normal tt).
Proof.
  destruct (primitive_payload_acts_inverted (JS.VBool true) Scenario.all_set)
    as [HD HS]; [discriminate |].
  split; [| exact HS].
  apply (HD "go-up" "up"). cbn. tauto.
Defined.

(** X3 for [go-southwest]. *)
Lemma listened_ids_have_methods_witness :
  exists h : handler,
    proto (host := Scenario.host) "go-southwest" = Some h /\
    forall value this,
      deliver (host := Scenario.host) "go-southwest" value this = h value this.
Proof.
  destruct (listened_ids_have_methods (host := Scenario.host) "go-southwest")
    as (h & HP & HD & _).
  - cbn. tauto.
  - exists h. split; [exact HP | exact HD].
Defined.

(** X4 for [stop] with the payload [null], and for an id nobody listens
    for. *)
Lemma only_ticks_throw_witness :
  snd (deliver (host := Scenario.host) "stop" JS.VNull Scenario.all_set) =
  JS.Normal tt /\
  deliver (host := Scenario.host) "jump" JS.VNull Scenario.all_set =
  (Scenario.all_set, JS.Normal tt).
Proof.
  split.
  - apply (only_ticks_throw (host := Scenario.host) "stop" JS.VNull
             Scenario.all_set).
    discriminate.
  - apply (only_ticks_throw (host := Scenario.host) "jump" JS.VNull
             Scenario.all_set).
    cbn. intuition discriminate.
Defined.

(** X5 heading up: the tick without payload throws, and [moving] is set. *)
Lemma tick_without_payload_throws_witness :
  snd (handle_logic (host := Scenario.host) JS.VUndefined (Scenario.heading "up"))
  = JS.TypeError /\
  moving (fst (handle_logic (host := Scenario.host) JS.VUndefined
                 (Scenario.heading "up"))) = true.
Proof.
  destruct (tick_without_payload_throws (host := Scenario.host) JS.VUndefined
              (Scenario.heading "up") (or_introl eq_refl)) as (HT & HM & _).
  split; [exact HT | exact HM].
Defined.

(** X6 at rest, for the empty payload object. *)
Lemma tick_without_deltaT_loses_position_witness :
  is_nan (Entity.x (owner (fst (handle_logic (host := Scenario.host)
                                  (JS.VObj []) Scenario.fresh)))) = true.
Proof.
  exact (proj1 (tick_without_deltaT_loses_position (host := Scenario.host)
                  (JS.VObj []) JS.VUndefined Scenario.fresh eq_refl eq_refl)).
Defined.

(** X7 heading up: one notification from the first tick, none from the
    three that follow. *)
Lemma ticks_after_first_are_silent_witness :
  List.length
    (Entity.triggered
       (owner (run (host := Scenario.host)
                 [("handle-logic", Scenario.tick 16);
                  ("handle-logic", Scenario.tick 16);
                  ("handle-logic", JS.VUndefined);
                  ("handle-logic", Scenario.tick 16)]
                 (Scenario.heading "up")))) = 1.
Proof.
  pose proof (proj2 (ticks_after_first_are_silent (host := Scenario.host)
                       (Scenario.tick 16) (JS.VNum 16) (Scenario.heading "up")
                       [Scenario.tick 16; JS.VUndefined; Scenario.tick 16]
                       eq_refl)) as H.
  cbn [map] in H. cbn [run].
  change (deliver (host := Scenario.host) "handle-logic" (Scenario.tick 16)
            (Scenario.heading "up"))
    with (handle_logic (host := Scenario.host) (Scenario.tick 16)
            (Scenario.heading "up")).
  cbn [run] in H. rewrite H. reflexivity.
Defined.

(** X8 with every flag set: not moving, velocity zero. *)
Lemma moving_iff_unopposed_flag_witness :
  fst (velocity (host := Scenario.host) Scenario.all_set) = (0, 0)%float.
Proof.
  exact (proj2 (moving_iff_unopposed_flag (host := Scenario.host)
                  Scenario.all_set) eq_refl).
Defined.

(** X9 heading right. *)
Lemma cardinal_branch_has_one_flag_witness :
  count_occ bool_dec (flags (Scenario.heading "right")) true <= 1.
Proof.
  exact (cardinal_branch_has_one_flag (Scenario.heading "right")
           eq_refl eq_refl eq_refl).
Defined.

(** X10 with the compass aliases. *)
Lemma up_then_left_is_upLeft_witness :
  velocity (host := Scenario.host)
    (run (host := Scenario.host)
       [("go-north", JS.VUndefined); ("go-west", JS.VUndefined)] Scenario.fresh) =
  (- 0.3 / 1.414, - 0.3 / 1.414, true)%float.
Proof.
  refine (proj1 (up_then_left_is_upLeft (host := Scenario.host) Scenario.fresh
                   "go-north" "go-west" eq_refl _ _)); cbn; tauto.
Defined.

(** X11 for [go-up] on the newly built component. *)
Lemma press_then_release_restores_witness :
  run (host := Scenario.host)
    [("go-up", Scenario.pressed true); ("go-up", Scenario.pressed false)]
    Scenario.fresh = Scenario.fresh.
Proof.
  apply (press_then_release_restores (host := Scenario.host) "go-up" "up");
    try reflexivity.
  cbn. tauto.
Defined.

(** X12 for [go-up] pressed and [go-left] with no payload. *)
Lemma directional_messages_commute_witness :
  run (host := Scenario.host)
    [("go-up", Scenario.pressed true); ("go-left", JS.VUndefined)] Scenario.fresh =
  run (host := Scenario.host)
    [("go-left", JS.VUndefined); ("go-up", Scenario.pressed true)] Scenario.fresh.
Proof.
  apply (directional_messages_commute (host := Scenario.host)
           "go-up" "up" "go-left" "left"); [cbn; tauto | cbn; tauto | discriminate].
Defined.

(** X13 with every flag set. *)
Lemma stop_then_tick_rests_witness :
  flags (run (host := Scenario.host)
           [("stop", JS.VUndefined); ("handle-logic", Scenario.tick 16)]
           Scenario.all_set) = repeat false 8.
Proof.
  exact (proj1 (proj2 (proj2 (stop_then_tick_rests (host := Scenario.host)
                                (Scenario.tick 16) (JS.VNum 16) Scenario.all_set
                                eq_refl eq_refl)))).
Defined.

(** X14 heading down-left. *)
Lemma downLeft_flag_reports_up_witness :
  State.up (state (fst (handle_logic (host := Scenario.host) (Scenario.tick 16)
                          (Scenario.heading "downLeft")))) = true.
Proof.
  exact (proj1 (proj2 (downLeft_flag_reports_up (host := Scenario.host)
                         (Scenario.tick 16) (JS.VNum 16)
                         (Scenario.heading "downLeft")
                         eq_refl eq_refl eq_refl eq_refl eq_refl eq_refl))).
Defined.

(** X15 for the undefined definition. *)
Lemma constructor_binds_before_reading_speed_witness :
  snd (construct Scenario.entity JS.VUndefined) = JS.TypeError /\
  List.length (Binding.bound (fst (construct Scenario.entity JS.VUndefined))) = 18.
Proof.
  destruct (constructor_binds_before_reading_speed Scenario.entity JS.VUndefined)
    as (HB & _ & _ & HT).
  split; [exact (HT (or_introl eq_refl)) |].
  rewrite <- (length_map fst), HB. reflexivity.
Defined.

(** X16 for the constructor's eighteen ids. *)
Lemma destroy_unbinds_what_was_bound_witness :
  Permutation
    (Binding.unbound
       (Binding.destroy (Binding.addListeners listeners Binding.empty)))
    (Binding.bound (Binding.addListeners listeners Binding.empty)).
Proof.
  refine (proj1 (destroy_unbinds_what_was_bound listeners listeners_NoDup _)).
  unfold listeners. repeat constructor.
Defined.

(** X18 heading up, over two ticks. *)
Lemma ticks_keep_heading_witness :
  flags (run (host := Scenario.host)
           [("handle-logic", Scenario.tick 16); ("handle-logic", JS.VNull)]
           (Scenario.heading "up")) = flags (Scenario.heading "up").
Proof.
  exact (proj1 (ticks_keep_heading (host := Scenario.host)
                  [Scenario.tick 16; JS.VNull] (Scenario.heading "up"))).
Defined.

(** X19 for the empty payload object. *)
Lemma stop_with_object_follows_pressed_witness :
  stop (JS.VObj []) Scenario.all_set = (Scenario.all_set, JS.Normal tt).
Proof.
  exact (proj1 (stop_with_object_follows_pressed [] Scenario.all_set) eq_refl).
Defined.
